(** * Verification of the SEO constraint engine of creativeia

    The development embeds, function by function, the text-rewriting and
    validation code of
      - [src/generator/seo_optimizer.py]      (module [SEOOptimizer]),
      - [src/publisher/publication_manager.py] (module [PublicationManager]),
      - [src/review/review_manager.py]         (module [ReviewManager]),
    and states the properties of the specification over these embeddings.

    Python strings are sequences of code points; the builtins that depend on
    the Unicode character database are gathered in the class [Unicode], so
    that every general theorem holds whatever these tables are.  The
    instance [latin1] gives the tables of CPython for U+0000..U+00FF and is
    the one used to run the code on concrete inputs. *)

From Stdlib Require Import ZArith NArith List String Ascii Floats Uint63 Lia Bool.
From stdpp Require Import gmap strings list.
Import ListNotations.

Set Default Proof Using "Type".

(** ** Python strings and their builtins *)

Module Py.

Definition char := N.
Definition str := list char.

Definition ch (a : ascii) : char := N_of_ascii a.

(** Source literals are written as UTF-8 and decoded to code points. *)
Fixpoint utf8_decode (bs : list N) : str :=
  match bs with
  | [] => []
  | b :: r =>
      if (b <? 128)%N then b :: utf8_decode r
      else if (b <? 224)%N then
        match r with
        | b1 :: r1 => ((b - 192) * 64 + (b1 - 128))%N :: utf8_decode r1
        | _ => []
        end
      else if (b <? 240)%N then
        match r with
        | b1 :: b2 :: r2 =>
            ((b - 224) * 4096 + (b1 - 128) * 64 + (b2 - 128))%N :: utf8_decode r2
        | _ => []
        end
      else
        match r with
        | b1 :: b2 :: b3 :: r3 =>
            ((b - 240) * 262144 + (b1 - 128) * 4096 + (b2 - 128) * 64 + (b3 - 128))%N
              :: utf8_decode r3
        | _ => []
        end
  end.

Definition u (s : string) : str :=
  utf8_decode (map N_of_ascii (list_ascii_of_string s)).
Arguments u s%_string : simpl never.

(** [str.encode('utf-8')]: surrogates (and numbers that are not code points)
    raise [UnicodeEncodeError]. *)
Definition utf8_char (c : char) : option (list N) :=
  if (c <? 128)%N then Some [c]
  else if (c <? 2048)%N then Some [192 + c / 64; 128 + c mod 64]%N
  else if (c <? 55296)%N || ((57343 <? c) && (c <? 65536))%N then
    Some [224 + c / 4096; 128 + (c / 64) mod 64; 128 + c mod 64]%N
  else if (65536 <=? c)%N && (c <? 1114112)%N then
    Some [240 + c / 262144; 128 + (c / 4096) mod 64; 128 + (c / 64) mod 64; 128 + c mod 64]%N
  else None.

Fixpoint encode_utf8 (s : str) : option (list N) :=
  match s with
  | [] => Some []
  | c :: r =>
      match utf8_char c, encode_utf8 r with
      | Some bs, Some rest => Some (bs ++ rest)
      | _, _ => None
      end
  end.

Definition str_eqb (a b : str) : bool := bool_decide (a = b).

(** [bool(s)]: a string is true when it is not empty. *)
Definition truthy (s : str) : bool :=
  match s with
  | [] => false
  | _ :: _ => true
  end.

(** [s.startswith(p)] *)
Fixpoint startswith (p s : str) : bool :=
  match p, s with
  | [], _ => true
  | _ :: _, [] => false
  | a :: p', b :: s' => (a =? b)%N && startswith p' s'
  end.

(** [sub in s] *)
Fixpoint contains (sub s : str) : bool :=
  startswith sub s ||
  match s with
  | [] => false
  | _ :: r => contains sub r
  end.

(** [s.count(sub)]: occurrences that do not overlap, from the left.  [skip]
    is the number of characters of the last occurrence still to step over. *)
Fixpoint count_from (sub s : str) (skip : nat) : nat :=
  match s with
  | [] => 0
  | _ :: r =>
      match skip with
      | S k => count_from sub r k
      | O => if startswith sub s then S (count_from sub r (length sub - 1))
             else count_from sub r 0
      end
  end.

Definition count (sub s : str) : nat :=
  match sub with
  | [] => S (length s)
  | _ => count_from sub s 0
  end.

(** [s.split(sep)] for a non-empty separator; [cur] holds the current piece,
    reversed. *)
Fixpoint split_from (sep s : str) (skip : nat) (cur : str) : list str :=
  match s with
  | [] => [rev cur]
  | c :: r =>
      match skip with
      | S k => split_from sep r k cur
      | O => if startswith sep s then rev cur :: split_from sep r (length sep - 1) []
             else split_from sep r 0 (c :: cur)
      end
  end.

Definition split (sep s : str) : list str := split_from sep s 0 [].

(** [sep.join(l)] *)
Fixpoint join (sep : str) (l : list str) : str :=
  match l with
  | [] => []
  | [x] => x
  | x :: r => x ++ sep ++ join sep r
  end.

(** [s.replace(old, new)] for a non-empty [old]. *)
Definition replace (old new s : str) : str := join new (split old s).

(** [s.lstrip(cs)], [s.rstrip(cs)], [s.strip(cs)] over a set of characters
    given by its predicate. *)
Fixpoint lstrip_by (p : char -> bool) (s : str) : str :=
  match s with
  | [] => []
  | c :: r => if p c then lstrip_by p r else s
  end.

Definition rstrip_by (p : char -> bool) (s : str) : str :=
  rev (lstrip_by p (rev s)).

Definition strip_by (p : char -> bool) (s : str) : str :=
  rstrip_by p (lstrip_by p s).

Definition in_chars (cs : str) (c : char) : bool := existsb (N.eqb c) cs.

(** Slices [s[:n]] and [s[a:b]] with non-negative bounds. *)
Definition slice_to (n : nat) (s : str) : str := take n s.
Definition slice (a b : nat) (s : str) : str := take (b - a) (drop a s).

(** [s.endswith(p)] *)
Definition endswith (p s : str) : bool := startswith (rev p) (rev s).

(** [s.rfind(c)] for one character: the index of its last occurrence, where
    Python answers [-1] when there is none. *)
Fixpoint rfind (c : char) (s : str) : option nat :=
  match s with
  | [] => None
  | a :: r =>
      match rfind c r with
      | Some i => Some (S i)
      | None => if (a =? c)%N then Some 0 else None
      end
  end.

(** The part of the Unicode database and of the case machinery of CPython
    that the code goes through. *)
Class Unicode := {
  lower : str -> str;        (* str.lower() *)
  title : str -> str;        (* str.title() *)
  isspace : char -> bool;    (* str.isspace(), \s, split(), strip() *)
  isword : char -> bool;     (* \w *)
  casefold1 : char -> char;  (* one character under re.IGNORECASE *)
  nfd : str -> str;          (* unicodedata.normalize('NFD', _) *)
  is_Mn : char -> bool       (* unicodedata.category(_) == 'Mn' *)
}.

Section Builtins.
Context {U : Unicode}.

(** [s.split()]: pieces between runs of white space, none of them empty. *)
Fixpoint split_ws_from (s : str) (cur : str) : list str :=
  match s with
  | [] => match cur with [] => [] | _ => [rev cur] end
  | c :: r =>
      if isspace c then
        match cur with
        | [] => split_ws_from r []
        | _ => rev cur :: split_ws_from r []
        end
      else split_ws_from r (c :: cur)
  end.

Definition split_ws (s : str) : list str := split_ws_from s [].

(** [s.strip()] *)
Definition strip (s : str) : str := strip_by isspace s.

(** [len(s.split())] *)
Definition word_count (s : str) : nat := length (split_ws s).

(** Equality of two characters under [re.IGNORECASE]. *)
Definition ieq (a b : char) : bool := (casefold1 a =? casefold1 b)%N.

Fixpoint istartswith (p s : str) : bool :=
  match p, s with
  | [], _ => true
  | _ :: _, [] => false
  | a :: p', b :: s' => ieq a b && istartswith p' s'
  end.

(** [s.capitalize()]: the first character in title case, the others in lower
    case. *)
Definition capitalize (s : str) : str :=
  match s with
  | [] => []
  | c :: r => title [c] ++ lower r
  end.

End Builtins.

(** *** The tables of CPython on U+0000..U+00FF *)

Definition latin1_upper_letter (c : char) : bool :=
  ((65 <=? c) && (c <=? 90) || (192 <=? c) && (c <=? 214) || (216 <=? c) && (c <=? 222))%N.

Definition latin1_lower1 (c : char) : char :=
  if latin1_upper_letter c then (c + 32)%N else c.

Definition latin1_cased (c : char) : bool :=
  ((65 <=? c) && (c <=? 90) || (97 <=? c) && (c <=? 122)
   || (c =? 170) || (c =? 181) || (c =? 186)
   || (192 <=? c) && (c <=? 214) || (216 <=? c) && (c <=? 246)
   || (248 <=? c) && (c <=? 255))%N.

(** Title case of one character: the upper case, but [Ss] for U+00DF. *)
Definition latin1_title1 (c : char) : str :=
  if ((97 <=? c) && (c <=? 122) || (224 <=? c) && (c <=? 246) || (248 <=? c) && (c <=? 254))%N
  then [(c - 32)%N]
  else if (c =? 181)%N then [924%N]
  else if (c =? 223)%N then [83%N; 115%N]
  else if (c =? 255)%N then [376%N]
  else [c].

Fixpoint latin1_title_from (s : str) (prev_cased : bool) : str :=
  match s with
  | [] => []
  | c :: r =>
      (if prev_cased then [latin1_lower1 c] else latin1_title1 c)
        ++ latin1_title_from r (latin1_cased c)
  end.

Definition latin1_isspace (c : char) : bool :=
  ((9 <=? c) && (c <=? 13) || (28 <=? c) && (c <=? 32) || (c =? 133) || (c =? 160))%N.

Definition latin1_isword (c : char) : bool :=
  ((48 <=? c) && (c <=? 57) || (65 <=? c) && (c <=? 90) || (c =? 95)
   || (97 <=? c) && (c <=? 122)
   || (c =? 170) || (178 <=? c) && (c <=? 179) || (c =? 181)
   || (185 <=? c) && (c <=? 186) || (188 <=? c) && (c <=? 190)
   || (192 <=? c) && (c <=? 214) || (216 <=? c) && (c <=? 246)
   || (248 <=? c) && (c <=? 255))%N.

(** Canonical decomposition: base letter and combining mark. *)
Definition latin1_nfd_table : list (char * str) :=
  [ (192, [65; 768]); (193, [65; 769]); (194, [65; 770]); (195, [65; 771]);
    (196, [65; 776]); (197, [65; 778]); (199, [67; 807]); (200, [69; 768]);
    (201, [69; 769]); (202, [69; 770]); (203, [69; 776]); (204, [73; 768]);
    (205, [73; 769]); (206, [73; 770]); (207, [73; 776]); (209, [78; 771]);
    (210, [79; 768]); (211, [79; 769]); (212, [79; 770]); (213, [79; 771]);
    (214, [79; 776]); (217, [85; 768]); (218, [85; 769]); (219, [85; 770]);
    (220, [85; 776]); (221, [89; 769]); (224, [97; 768]); (225, [97; 769]);
    (226, [97; 770]); (227, [97; 771]); (228, [97; 776]); (229, [97; 778]);
    (231, [99; 807]); (232, [101; 768]); (233, [101; 769]); (234, [101; 770]);
    (235, [101; 776]); (236, [105; 768]); (237, [105; 769]); (238, [105; 770]);
    (239, [105; 776]); (241, [110; 771]); (242, [111; 768]); (243, [111; 769]);
    (244, [111; 770]); (245, [111; 771]); (246, [111; 776]); (249, [117; 768]);
    (250, [117; 769]); (251, [117; 770]); (252, [117; 776]); (253, [121; 769]);
    (255, [121; 776]) ]%N.

Fixpoint assoc_char (c : char) (t : list (char * str)) : option str :=
  match t with
  | [] => None
  | (k, v) :: r => if (k =? c)%N then Some v else assoc_char c r
  end.

Definition latin1_nfd1 (c : char) : str :=
  match assoc_char c latin1_nfd_table with
  | Some d => d
  | None => [c]
  end.

#[export] Instance latin1 : Unicode := {|
  lower := map latin1_lower1;
  title := fun s => latin1_title_from s false;
  isspace := latin1_isspace;
  isword := latin1_isword;
  casefold1 := latin1_lower1;
  nfd := flat_map latin1_nfd1;
  is_Mn := fun c => ((768 <=? c) && (c <=? 879))%N
|}.

End Py.

Export Py.

(** ** The regular expressions of the sources, matcher by matcher *)

Module Re.

Definition LT : char := ch "<".
Definition GT : char := ch ">".
Definition NL : char := 10%N.

(** [re.sub(r'<[^>]+>', '', s)], read as an automaton.  Outside a tag the
    state is [None]; after a [<] it holds the characters read since, in
    reverse, until the first [>] closes the tag.  [<>] is no tag and stays;
    a [<] that no [>] follows stays with what was read after it. *)
Definition tag_step (pending : option str) (c : char) : str * option str :=
  match pending with
  | None => if (c =? LT)%N then ([], Some []) else ([c], None)
  | Some buf =>
      if (c =? GT)%N then
        match buf with
        | [] => ([LT; GT], None)
        | _ :: _ => ([], None)
        end
      else ([], Some (c :: buf))
  end.

Definition tag_flush (pending : option str) : str :=
  match pending with
  | None => []
  | Some buf => LT :: rev buf
  end.

Fixpoint strip_tags_from (s : str) (pending : option str) : str :=
  match s with
  | [] => tag_flush pending
  | c :: r => fst (tag_step pending c) ++ strip_tags_from r (snd (tag_step pending c))
  end.

(** The state in which the automaton leaves [s]. *)
Definition tag_state (s : str) (pending : option str) : option str :=
  fold_left (fun pending c => snd (tag_step pending c)) s pending.

(** Every [<] of [s] starts a tag that is closed in [s], or is part of one. *)
Definition tags_closed (s : str) : bool :=
  match tag_state s None with
  | None => true
  | Some _ => false
  end.

Definition strip_tags (s : str) : str := strip_tags_from s None.

(** [re.split(r'[...]+', s)] for a character class given by its predicate. *)
Fixpoint split_runs_from (p : char -> bool) (s : str) (cur : str) (in_run : bool)
  : list str :=
  match s with
  | [] => [rev cur]
  | c :: r =>
      if p c then
        if in_run then split_runs_from p r [] true
        else rev cur :: split_runs_from p r [] true
      else split_runs_from p r (c :: cur) false
  end.

Definition split_runs (p : char -> bool) (s : str) : list str :=
  split_runs_from p s [] false.

(** [re.sub(r'[...]+', repl, s)] *)
Fixpoint sub_runs_from (p : char -> bool) (repl : str) (s : str) (in_run : bool) : str :=
  match s with
  | [] => []
  | c :: r =>
      if p c then
        if in_run then sub_runs_from p repl r true
        else repl ++ sub_runs_from p repl r true
      else c :: sub_runs_from p repl r false
  end.

Definition sub_runs (p : char -> bool) (repl s : str) : str :=
  sub_runs_from p repl s false.

(** [re.sub(r'[^...]', '', s)]: only the characters of the class stay. *)
Definition keep_class (p : char -> bool) (s : str) : str := List.filter p s.

(** The lazy group [(.*?)] and what follows it: the shortest prefix [g] of
    [s] free of [bad] characters after which [stop] holds; the result is [g]
    and the rest of [s]. *)
Fixpoint until_first (stop : str -> bool) (bad : char -> bool) (s : str) (acc : str)
  : option (str * str) :=
  if stop s then Some (rev acc, s)
  else match s with
       | [] => None
       | c :: r => if bad c then None else until_first stop bad r (c :: acc)
       end.

Definition at_gt (s : str) : bool :=
  match s with
  | c :: _ => (c =? GT)%N
  | [] => false
  end.

(** A tag [<name[^>]*>(.*?)</name>] at the head of [s]: [open] recognises
    [<name] and returns what follows it, [close] recognises [</name>] of
    [close_len] characters.  The result is the group and the length of the
    whole match. *)
Definition match_element (open : str -> option (nat * str)) (close : str -> bool)
    (close_len : nat) (bad : char -> bool) (s : str) : option (str * nat) :=
  match open s with
  | None => None
  | Some (open_len, r) =>
      match until_first at_gt (fun _ => false) r [] with
      | Some (attrs, _ :: body) =>
          match until_first close bad body [] with
          | Some (g, _) => Some (g, open_len + length attrs + 1 + length g + close_len)
          | None => None
          end
      | _ => None
      end
  end.

(** [re.findall] and [re.sub] with a function, for a pattern with one group
    that matches no empty string: matches are taken from the left and do not
    overlap. *)
Fixpoint findall_from (m : str -> option (str * nat)) (s : str) (skip : nat) : list str :=
  match s with
  | [] => []
  | _ :: r =>
      match skip with
      | S k => findall_from m r k
      | O => match m s with
             | Some (g, n) => g :: findall_from m r (n - 1)
             | None => findall_from m r 0
             end
      end
  end.

Definition findall (m : str -> option (str * nat)) (s : str) : list str :=
  findall_from m s 0.

Fixpoint sub_from (m : str -> option (str * nat)) (f : str -> str) (s : str) (skip : nat)
  : str :=
  match s with
  | [] => []
  | c :: r =>
      match skip with
      | S k => sub_from m f r k
      | O => match m s with
             | Some (g, n) => f g ++ sub_from m f r (n - 1)
             | None => c :: sub_from m f r 0
             end
      end
  end.

Definition sub_with (m : str -> option (str * nat)) (f : str -> str) (s : str) : str :=
  sub_from m f s 0.

(** [re.split(r'([...])', s)] for a class of single characters: the pieces
    between the characters of the class and these characters, in turn. *)
Fixpoint split_keep_from (p : char -> bool) (s : str) (cur : str) : list str :=
  match s with
  | [] => [rev cur]
  | c :: r =>
      if p c then rev cur :: [c] :: split_keep_from p r []
      else split_keep_from p r (c :: cur)
  end.

Definition split_keep (p : char -> bool) (s : str) : list str :=
  split_keep_from p s [].

Section IgnoreCase.
Context {U : Unicode}.

(** [<h[23]] and [</h[23]>] under [re.IGNORECASE] *)
Definition open_heading (s : str) : option (nat * str) :=
  match s with
  | c0 :: c1 :: c2 :: r =>
      if (c0 =? LT)%N && ieq c1 (ch "h") && ((c2 =? ch "2") || (c2 =? ch "3"))%N
      then Some (3, r) else None
  | _ => None
  end.

Definition close_heading (s : str) : bool :=
  match s with
  | c0 :: c1 :: c2 :: c3 :: c4 :: _ =>
      (c0 =? LT)%N && (c1 =? ch "/")%N && ieq c2 (ch "h")
      && ((c3 =? ch "2") || (c3 =? ch "3"))%N && (c4 =? GT)%N
  | _ => false
  end.

(** [re.findall(r'<h[23][^>]*>(.*?)</h[23]>', content, re.IGNORECASE)]; the
    dot matches no line feed. *)
Definition find_headings (content : str) : list str :=
  findall (match_element open_heading close_heading 5 (N.eqb NL)) content.

End IgnoreCase.

End Re.

(** ** Python numbers: [int] counts as [nat], [float] as binary64 *)

Module PyNum.

(** [float(n)] for a count [n]; exact below [2^53]. *)
Definition float_of_nat (n : nat) : float :=
  PrimFloat.of_uint63 (Uint63.of_Z (Z.of_nat n)).

(** [(a / b) * 100] on two counts. *)
Definition percent (a b : nat) : float :=
  PrimFloat.mul (PrimFloat.div (float_of_nat a) (float_of_nat b)) 100%float.

(** [x <= y] and [x >= y] on floats. *)
Definition fle (x y : float) : bool := PrimFloat.leb x y.
Definition fge (x y : float) : bool := PrimFloat.leb y x.
Definition flt (x y : float) : bool := PrimFloat.ltb x y.
Definition fgt (x y : float) : bool := PrimFloat.ltb y x.

(** [int(x)] on a finite float: truncation towards zero. *)
Definition int_of_float (x : float) : Z :=
  match Prim2SF x with
  | S754_finite sign m e =>
      let mag := match e with
                 | Zpos p => (Zpos m * 2 ^ Zpos p)%Z
                 | Z0 => Zpos m
                 | Zneg p => (Zpos m / 2 ^ Zpos p)%Z
                 end in
      if sign then (- mag)%Z else mag
  | _ => 0%Z
  end.

End PyNum.

Export PyNum.

(** ** Python exceptions as results *)

Module PyExn.

Inductive exn :=
| AttributeError
| TypeError
| IndexError
| KeyError
| UnicodeEncodeError
| OperationalError.

Inductive result (A : Type) :=
| Ok (a : A)
| Raise (e : exn).
Arguments Ok {A} a.
Arguments Raise {A} e.

#[export] Instance result_ret : MRet result := @Ok.

#[export] Instance result_bind : MBind result :=
  fun A B (k : A -> result B) (r : result A) =>
    match r with
    | Ok a => k a
    | Raise e => Raise e
    end.

(** [try: body / except Exception as e: handler(e)] *)
Definition try_except {A : Type} (body : result A) (handler : exn -> result A) : result A :=
  match body with
  | Ok a => Ok a
  | Raise e => handler e
  end.

Definition raises {A : Type} (r : result A) : Prop :=
  exists e, r = Raise e.

End PyExn.

Export PyExn.

(** ** Python values held by an article dictionary *)

Module PyVal.

(** Lists and dictionaries nest values; no induction principle is needed. *)
Unset Elimination Schemes.
Inductive pyval :=
| VNone
| VStr (s : str)
| VInt (z : Z)
| VList (l : list pyval)
| VDict (d : list (str * pyval)).
Set Elimination Schemes.

(** [bool(v)] *)
Definition is_true (v : pyval) : bool :=
  match v with
  | VNone => false
  | VStr s => match s with [] => false | _ => true end
  | VInt z => negb (z =? 0)%Z
  | VList l => match l with [] => false | _ => true end
  | VDict d => match d with [] => false | _ => true end
  end.

(** The receiver of a string method such as [v.lower()]: anything but a
    string raises [AttributeError]. *)
Definition as_str (v : pyval) : result str :=
  match v with
  | VStr s => Ok s
  | _ => Raise AttributeError
  end.

(** A string handed to [re.sub]: anything but a string raises [TypeError]. *)
Definition as_pattern_input (v : pyval) : result str :=
  match v with
  | VStr s => Ok s
  | _ => Raise TypeError
  end.

(** [list(v)] *)
Definition to_list (v : pyval) : result (list pyval) :=
  match v with
  | VList l => Ok l
  | VStr s => Ok (map (fun c => VStr [c]) s)
  | VDict d => Ok (map (fun kv => VStr (fst kv)) d)
  | VNone | VInt _ => Raise TypeError
  end.

End PyVal.

Export PyVal.

(** ** [hashlib.md5] (RFC 1321) on a list of bytes *)

Module MD5.

Local Open Scope N_scope.

Definition mask32 : N := 0xffffffff.
Definition add32 (a b : N) : N := N.land (a + b) mask32.
Definition not32 (a : N) : N := N.lxor a mask32.
Definition rotl32 (x : N) (c : N) : N :=
  N.lor (N.land (N.shiftl x c) mask32) (N.shiftr x (32 - c)).

Definition shifts : list N :=
  [ 7; 12; 17; 22; 7; 12; 17; 22; 7; 12; 17; 22; 7; 12; 17; 22;
    5; 9; 14; 20; 5; 9; 14; 20; 5; 9; 14; 20; 5; 9; 14; 20;
    4; 11; 16; 23; 4; 11; 16; 23; 4; 11; 16; 23; 4; 11; 16; 23;
    6; 10; 15; 21; 6; 10; 15; 21; 6; 10; 15; 21; 6; 10; 15; 21 ].

Definition sines : list N :=
  [ 0xd76aa478; 0xe8c7b756; 0x242070db; 0xc1bdceee;
    0xf57c0faf; 0x4787c62a; 0xa8304613; 0xfd469501;
    0x698098d8; 0x8b44f7af; 0xffff5bb1; 0x895cd7be;
    0x6b901122; 0xfd987193; 0xa679438e; 0x49b40821;
    0xf61e2562; 0xc040b340; 0x265e5a51; 0xe9b6c7aa;
    0xd62f105d; 0x02441453; 0xd8a1e681; 0xe7d3fbc8;
    0x21e1cde6; 0xc33707d6; 0xf4d50d87; 0x455a14ed;
    0xa9e3e905; 0xfcefa3f8; 0x676f02d9; 0x8d2a4c8a;
    0xfffa3942; 0x8771f681; 0x6d9d6122; 0xfde5380c;
    0xa4beea44; 0x4bdecfa9; 0xf6bb4b60; 0xbebfbc70;
    0x289b7ec6; 0xeaa127fa; 0xd4ef3085; 0x04881d05;
    0xd9d4d039; 0xe6db99e5; 0x1fa27cf8; 0xc4ac5665;
    0xf4292244; 0x432aff97; 0xab9423a7; 0xfc93a039;
    0x655b59c3; 0x8f0ccc92; 0xffeff47d; 0x85845dd1;
    0x6fa87e4f; 0xfe2ce6e0; 0xa3014314; 0x4e0811a1;
    0xf7537e82; 0xbd3af235; 0x2ad7d2bb; 0xeb86d391 ].

Record state := { sa : N; sb : N; sc : N; sd : N }.

Definition init : state :=
  {| sa := 0x67452301; sb := 0xefcdab89; sc := 0x98badcfe; sd := 0x10325476 |}.

(** Little-endian words of a block, and bytes of a word. *)
Fixpoint words_le (bs : list N) : list N :=
  match bs with
  | b0 :: b1 :: b2 :: b3 :: r =>
      (b0 + 256 * b1 + 65536 * b2 + 16777216 * b3) :: words_le r
  | _ => []
  end.

Definition bytes_le (n : nat) (w : N) : list N :=
  map (fun i => N.land (N.shiftr w (8 * N.of_nat i)) 255) (seq 0 n).

(** One of the 64 operations on the block [m]. *)
Definition round (m : list N) (st : state) (i : nat) : state :=
  let '(f, g) :=
    if (i <? 16)%nat then
      (N.lor (N.land (sb st) (sc st)) (N.land (not32 (sb st)) (sd st)), i)
    else if (i <? 32)%nat then
      (N.lor (N.land (sd st) (sb st)) (N.land (not32 (sd st)) (sc st)),
       ((5 * i + 1) mod 16)%nat)
    else if (i <? 48)%nat then
      (N.lxor (sb st) (N.lxor (sc st) (sd st)), ((3 * i + 5) mod 16)%nat)
    else
      (N.lxor (sc st) (N.lor (sb st) (not32 (sd st))), ((7 * i) mod 16)%nat) in
  let f' := add32 (add32 (add32 f (sa st)) (nth i sines 0)) (nth g m 0) in
  {| sa := sd st;
     sd := sc st;
     sc := sb st;
     sb := add32 (sb st) (rotl32 f' (nth i shifts 0)) |}.

Definition block (st : state) (bs : list N) : state :=
  let r := fold_left (round (words_le bs)) (seq 0 64) st in
  {| sa := add32 (sa st) (sa r);
     sb := add32 (sb st) (sb r);
     sc := add32 (sc st) (sc r);
     sd := add32 (sd st) (sd r) |}.

(** Padding: [0x80], zeros up to 56 modulo 64, the length in bits on 64. *)
Definition pad (msg : list N) : list N :=
  let len := length msg in
  let zeros := ((119 - len mod 64) mod 64)%nat in
  msg ++ [128] ++ repeat 0 zeros ++ bytes_le 8 (8 * N.of_nat len).

Fixpoint blocks (n : nat) (bs : list N) (st : state) : state :=
  match n with
  | O => st
  | S k => blocks k (drop 64 bs) (block st (take 64 bs))
  end.

Definition digest (msg : list N) : list N :=
  let p := pad msg in
  let st := blocks (length p / 64) p init in
  bytes_le 4 (sa st) ++ bytes_le 4 (sb st) ++ bytes_le 4 (sc st) ++ bytes_le 4 (sd st).

Definition hex_digit (d : N) : char :=
  if d <? 10 then 48 + d else 87 + d.

(** [hashlib.md5(msg).hexdigest()] *)
Definition hexdigest (msg : list N) : str :=
  flat_map (fun b => [hex_digit (b / 16); hex_digit (b mod 16)]) (digest msg).

End MD5.

(** ** [src/generator/seo_optimizer.py] *)

Module SEOOptimizer.

Definition max_meta_description_length : nat := 155.
Definition min_meta_description_length : nat := 120.
Definition max_title_length : nat := 60.
Definition min_title_length : nat := 30.
Definition max_slug_length : nat := 50.

Definition stop_words : list str :=
  [ u "a"; u "e"; u "o"; u "de"; u "da"; u "do"; u "para"; u "com"; u "em"; u "na"; u "no";
    u "por"; u "até"; u "como"; u "mais"; u "muito"; u "sem"; u "seu"; u "sua"; u "seus";
    u "suas"; u "que"; u "qual"; u "quando"; u "onde"; u "porque"; u "como"; u "um";
    u "uma"; u "uns"; u "umas"; u "isso"; u "essa"; u "esta"; u "este"; u "estas";
    u "estes"; u "ela"; u "ele"; u "elas"; u "eles"; u "ser"; u "ter"; u "estar" ].

(** [x in l] on a list of strings *)
Definition mem (x : str) (l : list str) : bool := existsb (str_eqb x) l.

(** The loop that keeps the leading words of [words] while the text built so
    far stays within [limit] characters, and stops at the first word that
    does not fit. *)
Fixpoint fit_words (limit : nat) (words : list str) (acc : str) : str :=
  match words with
  | [] => acc
  | word :: rest =>
      let test_length :=
        if truthy acc then length (acc ++ u " " ++ word) else length word in
      if test_length <=? limit
      then fit_words limit rest (acc ++ (if truthy acc then u " " else []) ++ word)
      else acc
  end.

Section Code.
Context {U : Unicode}.

(** [optimize_title_yoast] *)
Definition optimize_title_yoast (title keyword : str) : str :=
  if negb (truthy title) then Py.title keyword ++ u ": Características e Benefícios"
  else
    let title :=
      if negb (contains (lower keyword) (lower title))
      then Py.title keyword ++ u ": " ++ title
      else title in
    let title :=
      if max_title_length <? length title then
        if contains (lower keyword) (lower (slice_to max_title_length title))
        then fit_words max_title_length (split_ws title) []
        else
          let title :=
            Py.title keyword ++ u ": " ++ strip (List.last (split (u ":") title) []) in
          if max_title_length <? length title
          then slice_to (max_title_length - 3) title ++ u "..."
          else title
      else title in
    strip title.

(** The two substitutions applied to the text and to the keyword:
    [re.sub(r'[^\w\s-]', '', s)] then [re.sub(r'[\s_-]+', '-', s)]. *)
Definition hyphenate (s : str) : str :=
  Re.sub_runs (fun c => isspace c || (c =? ch "_")%N || (c =? ch "-")%N) (u "-")
    (Re.keep_class (fun c => isword c || isspace c || (c =? ch "-")%N) s).

(** [generate_seo_slug] *)
Definition generate_seo_slug (text keyword : str) : str :=
  if negb (truthy text) && negb (truthy keyword) then u "produto"
  else
    let text := if negb (truthy text) then keyword else text in
    let slug := lower text in
    let slug := nfd slug in
    let slug := List.filter (fun c => negb (is_Mn c)) slug in
    let slug := hyphenate slug in
    let keyword_slug := hyphenate (lower keyword) in
    let slug :=
      if negb (contains keyword_slug slug) then keyword_slug ++ u "-" ++ slug else slug in
    let words := split (u "-") slug in
    let keyword_words := split (u "-") keyword_slug in
    let meaningful_words :=
      List.filter
        (fun word => mem word keyword_words
                     || (negb (mem word stop_words) && (2 <? length word)))
        words in
    let slug :=
      match meaningful_words with
      | [] => slug
      | _ :: _ => join (u "-") (take 6 meaningful_words)
      end in
    let slug :=
      if max_slug_length <? length slug then
        let words := split (u "-") slug in
        let keyword_count := length keyword_words in
        let remaining_words := take 3 (drop keyword_count words) in
        join (u "-") (keyword_words ++ remaining_words)
      else slug in
    let slug := strip_by (N.eqb (ch "-")) slug in
    if truthy slug then slug else u "produto".

Definition cta_options : list str :=
  [ u " Confira características e benefícios.";
    u " Ideal para escritório e empresas.";
    u " Descubra especificações e vantagens.";
    u " Saiba mais sobre funcionalidades." ].

(** [for cta in cta_options: if len(meta_desc + cta) <= max: meta_desc += cta; break] *)
Fixpoint append_first_cta (meta_desc : str) (ctas : list str) : str :=
  match ctas with
  | [] => meta_desc
  | cta :: rest =>
      if length (meta_desc ++ cta) <=? max_meta_description_length
      then meta_desc ++ cta
      else append_first_cta meta_desc rest
  end.

(** [optimize_meta_description_yoast] *)
Definition optimize_meta_description_yoast (meta_desc keyword : str) : str :=
  if negb (truthy meta_desc) then
    u "Conheça " ++ keyword
      ++ u " e suas principais características. Ideal para escritório e alta produtividade. Confira benefícios e especificações."
  else
    let meta_desc := Re.strip_tags meta_desc in
    let meta_desc :=
      if negb (contains (lower keyword) (lower meta_desc))
      then Py.title keyword ++ u ": " ++ meta_desc
      else meta_desc in
    let meta_desc :=
      if length meta_desc <? min_meta_description_length
      then append_first_cta meta_desc cta_options
      else if max_meta_description_length <? length meta_desc
      then fit_words (max_meta_description_length - 3) (split_ws meta_desc) [] ++ u "..."
      else meta_desc in
    strip meta_desc.

(** [generate_meta_description_yoast] *)
Definition generate_meta_description_yoast (content keyword : str) : str :=
  let text := Re.strip_tags content in
  let paragraphs := split [Re.NL] text in
  let first_paragraph :=
    match List.filter (fun p => 50 <? length p) (map strip paragraphs) with
    | p :: _ => p
    | [] => []
    end in
  let meta_desc :=
    if truthy first_paragraph
    then Py.title keyword ++ u ": " ++ slice_to 100 first_paragraph
    else u "Conheça " ++ keyword
           ++ u " e suas principais características. Ideal para escritório e alta produtividade." in
  optimize_meta_description_yoast meta_desc keyword.

(** [_generate_product_specific_features] *)
Definition product_features (keyword : str) : list str :=
  let keyword_lower := lower keyword in
  if contains (u "impressora") keyword_lower then
    [ u "Impressão rápida de até 38 páginas por minuto";
      u "Conectividade USB e Ethernet integrada";
      u "Compatibilidade com Windows, Mac e Linux";
      u "Baixo consumo de energia em standby";
      u "Bandeja com capacidade para 250 folhas";
      u "Resolução até 1200 x 1200 dpi" ]
  else if contains (u "multifuncional") keyword_lower then
    [ u "Impressão, cópia e scan em um equipamento";
      u "Scanner com resolução óptica de 600 dpi";
      u "Copiadora com zoom de 25% a 400%";
      u "Conectividade Wi-Fi para uso sem fio";
      u "Alimentador automático de documentos";
      u "Software de digitalização incluído" ]
  else if contains (u "toner") keyword_lower then
    [ u "Alto rendimento com até 2.300 páginas";
      u "Qualidade de impressão profissional";
      u "Instalação rápida e sem complicações";
      u "Compatível com múltiplos modelos";
      u "Tinta resistente e de longa duração";
      u "Garantia de qualidade comprovada" ]
  else if contains (u "papel") keyword_lower then
    [ u "Gramatura 75g/m² para impressão de qualidade";
      u "Brancura superior para textos nítidos";
      u "Formato A4 padrão universal";
      u "Papel sem ácido para durabilidade";
      u "Compatível com jato de tinta e laser";
      u "Embalagem resistente à umidade" ]
  else
    [ u "Qualidade superior comprovada";
      u "Excelente custo-benefício";
      u "Garantia de satisfação total";
      u "Compatibilidade com equipamentos modernos";
      u "Instalação e configuração simples";
      u "Design moderno e funcional" ].

Definition _generate_product_specific_features (keyword : str) (count : nat) : list str :=
  take count (product_features keyword).

(** The patterns [<ul[^>]*>(.*?)</ul>] and [<li[^>]*>(.*?)</li>] under
    [re.DOTALL]. *)
Definition open_tag (name : str) (s : str) : option (nat * str) :=
  if startswith (Re.LT :: name) s
  then Some (S (length name), drop (S (length name)) s)
  else None.

Definition close_tag (name : str) (s : str) : bool :=
  startswith (Re.LT :: ch "/" :: name ++ [Re.GT]) s.

Definition match_tag (name : str) : str -> option (str * nat) :=
  Re.match_element (open_tag name) (close_tag name) (length name + 3) (fun _ => false).

(** The items that [improve_list] keeps from those found: text without
    markup, and only if it is not empty and has at most 15 words. *)
Definition clean_item (item : str) : str := strip (Re.strip_tags item).

Definition keeps (clean_text : str) : bool :=
  truthy clean_text && (word_count clean_text <=? 15).

Definition clean_items (items : list str) : list str :=
  List.filter keeps (map clean_item items).

Definition render_list (items : list str) : str :=
  u "<ul>" ++ [Re.NL]
    ++ concat (map (fun item => u "    <li>" ++ item ++ u "</li>" ++ [Re.NL]) items)
    ++ u "</ul>".

(** [improve_list], on the group of the match. *)
Definition improve_list (keyword : str) (list_content : str) : str :=
  let items := Re.findall (match_tag (u "li")) list_content in
  let clean_items := clean_items items in
  let clean_items :=
    if length clean_items <? 3
    then clean_items
           ++ _generate_product_specific_features keyword (3 - length clean_items)
    else clean_items in
  render_list (take 6 clean_items).

(** [_optimize_lists_enhanced] *)
Definition _optimize_lists_enhanced (content keyword : str) : str :=
  Re.sub_with (match_tag (u "ul")) (improve_list keyword) content.

(** The words kept by [_extract_primary_keyword] from a name. *)
Definition keyword_of (name : str) : str :=
  let words := split_ws (lower name) in
  let keywords :=
    List.filter (fun w => negb (mem w stop_words) && (2 <? length w)) words in
  match keywords with
  | [] => lower name
  | _ :: _ => join (u " ") (take 2 keywords)
  end.

(** [_extract_primary_keyword] *)
Definition _extract_primary_keyword (article_data : gmap string pyval) : result str :=
  let title := default (VStr []) (article_data !! "titulo") in
  let product_name := default (VStr []) (article_data !! "produto_nome") in
  if is_true product_name then
    name ← as_str product_name; Ok (keyword_of name)
  else if is_true title then
    name ← as_str title; Ok (keyword_of name)
  else Ok (u "produto").

(** The functions above on an argument of any type: a false value takes the
    branch of the empty string, another value that is no string raises where
    the first string operation reaches it. *)
Definition optimize_title_yoast_any (title : pyval) (keyword : str) : result str :=
  if negb (is_true title) then Ok (optimize_title_yoast [] keyword)
  else title ← as_str title; Ok (optimize_title_yoast title keyword).

Definition generate_seo_slug_any (text : pyval) (keyword : str) : result str :=
  if negb (is_true text) then Ok (generate_seo_slug [] keyword)
  else text ← as_str text; Ok (generate_seo_slug text keyword).

Definition optimize_meta_description_yoast_any (meta_desc : pyval) (keyword : str)
  : result str :=
  if negb (is_true meta_desc) then Ok (optimize_meta_description_yoast [] keyword)
  else meta_desc ← as_pattern_input meta_desc;
       Ok (optimize_meta_description_yoast meta_desc keyword).

Definition generate_meta_description_yoast_any (content : pyval) (keyword : str)
  : result str :=
  content ← as_pattern_input content;
  Ok (generate_meta_description_yoast content keyword).

(** [any(variation.lower() in tag.lower() for tag in optimized_tags)] *)
Fixpoint any_tag_contains (variation_lower : str) (tags : list pyval) : result bool :=
  match tags with
  | [] => Ok false
  | tag :: rest =>
      tag ← as_str tag;
      if contains variation_lower (lower tag) then Ok true
      else any_tag_contains variation_lower rest
  end.

(** The loop over the variations: the first one that no tag contains goes to
    the front of the tags. *)
Fixpoint insert_first_missing (variations : list str) (tags : list pyval)
  : result (list pyval) :=
  match variations with
  | [] => Ok tags
  | variation :: rest =>
      found ← any_tag_contains (lower variation) tags;
      if (found : bool) then insert_first_missing rest tags
      else Ok (VStr variation :: tags)
  end.

(** [optimize_tags_yoast]; [keyword.split()[0]] raises [IndexError] on a
    keyword of spaces. *)
Definition optimize_tags_yoast (tags : pyval) (keyword : str) : result (list pyval) :=
  optimized_tags ← (if is_true tags then to_list tags else Ok []);
  first_word ←
    (if contains (u " ") keyword then
       match split_ws keyword with
       | w :: _ => Ok w
       | [] => Raise IndexError
       end
     else Ok keyword);
  let keyword_variations := [keyword; replace (u " ") (u "-") keyword; first_word] in
  optimized_tags ← insert_first_missing keyword_variations optimized_tags;
  Ok (take 8 optimized_tags).

(** [_find_best_split_point]; [None] is Python's [None]. *)
Definition connectors : list str :=
  [ u "e"; u "mas"; u "porém"; u "contudo"; u "entretanto"; u "no entanto";
    u "que"; u "porque"; u "quando"; u "onde"; u "como"; u "para que" ].

(** [range(8, min(len(words) - 3, 20))] *)
Definition split_positions (words : list str) : list nat :=
  seq 8 (Nat.min (length words - 3) 20 - 8).

Definition _find_best_split_point (words : list str) : option nat :=
  match List.find (fun i => mem (lower (nth i words [])) connectors) (split_positions words) with
  | Some i => Some i
  | None =>
      match List.find (fun i => endswith (u ",") (nth i words [])) (split_positions words) with
      | Some i => Some (i + 1)
      | None => None
      end
  end.

Definition sentence_transitions : list str :=
  [ u "Além disso"; u "Dessa forma"; u "Também"; u "Ainda" ].

(** The pieces that replace one sentence and its mark. *)
Definition split_sentence (sentence punctuation : str) (optimized_sentences : list str)
  : list str :=
  let words := split_ws sentence in
  if 20 <? length words then
    match _find_best_split_point words with
    | Some ((S _) as split_point) =>
        let first_part := join (u " ") (take split_point words) in
        let second_part := join (u " ") (drop split_point words) in
        let transition :=
          nth (length optimized_sentences mod length sentence_transitions)
            sentence_transitions [] in
        [first_part; u "."; u " " ++ transition ++ u ", " ++ lower second_part; punctuation]
    | _ =>
        let mid := length words / 2 in
        let first_part := join (u " ") (take mid words) in
        let second_part := join (u " ") (drop mid words) in
        [first_part; u "."; u " " ++ capitalize second_part; punctuation]
    end
  else [sentence; punctuation].

(** [while i < len(sentences) - 1: ...; i += 2]: the pieces are read two by
    two, a sentence and its mark; a piece left alone at the end is not
    read. *)
Fixpoint sentence_loop (sentences optimized_sentences : list str) : list str :=
  match sentences with
  | sentence :: punctuation :: rest =>
      let sentence := strip sentence in
      if negb (truthy sentence) then sentence_loop rest optimized_sentences
      else sentence_loop rest
             (optimized_sentences ++ split_sentence sentence punctuation optimized_sentences)
  | _ => optimized_sentences
  end.

(** A paragraph is left alone when it is blank or holds a [<]. *)
Definition skipped (paragraph : str) : bool :=
  negb (truthy (strip paragraph)) || contains (u "<") paragraph.

(** [_optimize_sentence_length_enhanced] *)
Definition _optimize_sentence_length_enhanced (content : str) : str :=
  if negb (truthy content) then content
  else
    join [Re.NL]
      (map (fun paragraph =>
              if skipped paragraph then paragraph
              else concat (sentence_loop (Re.split_keep (in_chars (u ".!?")) paragraph) []))
         (split [Re.NL] content)).

(** The loop of [_optimize_paragraph_length_enhanced] over the words of a
    long paragraph; the state is [chunks] and [current_chunk]. *)
Definition chunk_step (st : list str * list str) (word : str) : list str * list str :=
  let '(chunks, current_chunk) := st in
  let current_chunk := current_chunk ++ [word] in
  if 85 <=? length current_chunk then
    let chunk_text := join (u " ") current_chunk in
    let last_period := rfind (ch ".") chunk_text in
    match last_period with
    | Some last_period =>
        if 50 <? last_period then
          let remaining := strip (drop (last_period + 1) chunk_text) in
          (chunks ++ [slice_to (last_period + 1) chunk_text],
           if truthy remaining then split_ws remaining else [])
        else if 100 <=? length current_chunk
        then (chunks ++ [join (u " ") current_chunk], [])
        else (chunks, current_chunk)
    | None =>
        if 100 <=? length current_chunk
        then (chunks ++ [join (u " ") current_chunk], [])
        else (chunks, current_chunk)
    end
  else (chunks, current_chunk).

Definition split_paragraph (paragraph : str) : list str :=
  let words := split_ws paragraph in
  if length words <=? 100 then [paragraph]
  else
    let '(chunks, current_chunk) := fold_left chunk_step words ([], []) in
    match current_chunk with
    | [] => chunks
    | _ :: _ => chunks ++ [join (u " ") current_chunk]
    end.

(** [_optimize_paragraph_length_enhanced] *)
Definition _optimize_paragraph_length_enhanced (content : str) : str :=
  join [Re.NL; Re.NL]
    (flat_map (fun paragraph =>
                 if skipped paragraph then [paragraph] else split_paragraph paragraph)
       (split [Re.NL] content)).

(** [_ensure_keyword_in_intro] *)
Definition new_intro (keyword : str) : str :=
  if existsb (fun word => contains word (lower keyword))
       [u "impressora"; u "multifuncional"]
  then u "A " ++ keyword
         ++ u " é uma solução essencial para quem busca qualidade e eficiência."
  else u "O " ++ keyword ++ u " oferece recursos avançados e desempenho superior.".

Definition _ensure_keyword_in_intro (content keyword : str) : str :=
  let first_paragraph :=
    if contains [Re.NL] content then hd [] (split [Re.NL] content)
    else slice_to 200 content in
  if negb (contains (lower keyword) (lower (slice_to 100 first_paragraph))) then
    if startswith first_paragraph content
    then new_intro keyword ++ u " " ++ content
    else new_intro keyword ++ [Re.NL; Re.NL] ++ content
  else content.

Section Article.

(** The three steps of [optimize_article] that are left abstract:
    [optimize_content_readability] draws random numbers and catches its own
    exceptions, so it is any total function; the other two build
    dictionaries and may raise. *)
Variable optimize_content_readability : pyval -> str -> pyval.
Variable generate_structured_data_yoast : gmap string pyval -> result pyval.
Variable calculate_yoast_score : gmap string pyval -> result pyval.

(** The body of the [try] of [optimize_article]; [optimized] is the copy. *)
Definition optimize_article_try (article_data : gmap string pyval)
  : result (gmap string pyval) :=
  let optimized := article_data in
  primary_keyword ← _extract_primary_keyword optimized;
  let optimized := <["primary_keyword" := VStr primary_keyword]> optimized in
  optimized ←
    match optimized !! "titulo" with
    | Some titulo =>
        titulo ← optimize_title_yoast_any titulo primary_keyword;
        Ok (<["titulo" := VStr titulo]> optimized)
    | None => Ok optimized
    end;
  slug ← generate_seo_slug_any (default (VStr []) (optimized !! "titulo")) primary_keyword;
  let optimized := <["slug" := VStr slug]> optimized in
  optimized ←
    match optimized !! "meta_descricao", optimized !! "conteudo" with
    | Some meta_descricao, _ =>
        meta ← optimize_meta_description_yoast_any meta_descricao primary_keyword;
        Ok (<["meta_descricao" := VStr meta]> optimized)
    | None, Some conteudo =>
        meta ← generate_meta_description_yoast_any conteudo primary_keyword;
        Ok (<["meta_descricao" := VStr meta]> optimized)
    | None, None => Ok optimized
    end;
  let optimized :=
    match optimized !! "conteudo" with
    | Some conteudo =>
        <["conteudo" := optimize_content_readability conteudo primary_keyword]> optimized
    | None => optimized
    end in
  optimized ←
    match optimized !! "tags" with
    | Some tags =>
        tags ← optimize_tags_yoast tags primary_keyword;
        Ok (<["tags" := VList tags]> optimized)
    | None => Ok optimized
    end;
  seo_data ← generate_structured_data_yoast optimized;
  let optimized := <["seo_data" := seo_data]> optimized in
  yoast_score ← calculate_yoast_score optimized;
  Ok (<["yoast_score" := yoast_score]> optimized).

(** [optimize_article]: [except Exception] logs and returns [article_data]. *)
Definition optimize_article (article_data : gmap string pyval)
  : result (gmap string pyval) :=
  try_except (optimize_article_try article_data) (fun _ => Ok article_data).

End Article.

End Code.

End SEOOptimizer.

(** ** [src/publisher/publication_manager.py] *)

Module PublicationManager.

(** The messages appended to [validation_errors], by kind; the formatted
    numbers are kept as data. *)
Inductive violation :=
| FocusKeywordMissing
| KeywordNotInTitle
| TitleLength (n : nat)
| KeywordNotInMeta
| MetaLength (n : nat)
| KeywordNotInFirst100
| ContentTooShort (words : nat)
| InternalLinkMissing
| ExternalLinkMissing
| KeywordDensity (density : float)
| FewTransitionWords (ratio : float)
| ConsecutiveSentences (n : nat)
| KeyphraseNotInHeading
| CriticalNoFocusKeyword
| ValidationFailed.

(** The dictionary returned by [_validate_yoast_green_criteria]; the report
    of the [except] branch has no [checks], [passed_checks] and
    [total_checks]. *)
Record report := {
  is_valid : bool;
  score : float;
  passed_checks : option nat;
  total_checks : option nat;
  checks : list (string * bool);
  errors : list violation
}.

(** [validation_errors.append(e)] under [if not checks[k]]. *)
Definition unless (b : bool) (e : violation) : list violation :=
  if b then [] else [e].

(** [sum(checks.values())] *)
Definition count_passed (cs : list (string * bool)) : nat :=
  length (List.filter snd cs).

Section Code.
Context {U : Unicode}.

Definition external_domains : list str :=
  [u "hp.com"; u "canon.com"; u "epson.com"; u "brother.com"].

Definition validator_transition_words : list str :=
  [u "além disso"; u "portanto"; u "dessa forma"; u "consequentemente";
   u "por outro lado"; u "de fato"; u "em resumo"; u "vale destacar";
   u "por fim"; u "finalmente"; u "também"; u "adicionalmente"].

(** [[s.strip() for s in re.split(r'[.!?]+', text) if len(s.strip()) > 10]] *)
Definition long_sentences (text : str) : list str :=
  map strip
    (List.filter (fun s => 10 <? length (strip s))
       (Re.split_runs (in_chars (u ".!?")) text)).

Definition has_transition (sentence : str) : bool :=
  existsb (fun trans => contains trans (lower sentence)) validator_transition_words.

(** The loop of check 12; the state is [consecutive_count], [prev_first_word]
    and [consecutive_streak]. *)
Definition consecutive_step (st : nat * str * nat) (sentence : str) : nat * str * nat :=
  let '(consecutive_count, prev_first_word, consecutive_streak) := st in
  match split_ws (strip sentence) with
  | [] => st
  | w :: _ =>
      let first_word := lower w in
      if str_eqb first_word prev_first_word then
        let streak := S consecutive_streak in
        (if 2 <=? streak then S consecutive_count else consecutive_count,
         first_word, streak)
      else (consecutive_count, first_word, 0)
  end.

Definition consecutive_count (sentences : list str) : nat :=
  fst (fst (fold_left consecutive_step sentences (0, [], 0))).

Definition slug_class (c : char) : bool :=
  ((97 <=? c) && (c <=? 122) || (48 <=? c) && (c <=? 57) || (c =? ch "-"))%N.

(** The body of the [try] for a focus keyphrase that is a string. *)
Definition validate_str (content focus_keyphrase title meta_description : str) : report :=
  let c_focus_keyword := truthy focus_keyphrase && (3 <=? length focus_keyphrase) in
  let c_keyword_in_title :=
    if truthy focus_keyphrase then contains (lower focus_keyphrase) (lower title)
    else false in
  let c_title_length := (30 <=? length title) && (length title <=? 60) in
  let c_keyword_in_meta :=
    if truthy focus_keyphrase then contains (lower focus_keyphrase) (lower meta_description)
    else false in
  let c_meta_length :=
    (120 <=? length meta_description) && (length meta_description <=? 155) in
  let text_content := Re.strip_tags content in
  let c_keyword_first_100 :=
    if truthy focus_keyphrase
    then contains (lower focus_keyphrase) (lower (slice_to 100 text_content))
    else false in
  let word_count := word_count text_content in
  let c_min_words := 300 <=? word_count in
  let c_internal_link := contains (u "creativecopias.com.br") content in
  let c_external_link := existsb (fun domain => contains domain content) external_domains in
  let c_image_alt := true in
  let keyword_count :=
    if truthy focus_keyphrase then count (lower focus_keyphrase) (lower text_content)
    else 0 in
  let keyword_density :=
    if 0 <? word_count then percent keyword_count word_count else 0%float in
  let c_keyword_density := fle 0.5%float keyword_density && fle keyword_density 2.5%float in
  let sentences := long_sentences text_content in
  let transition_count := length (List.filter has_transition sentences) in
  let transition_ratio :=
    if 0 <? length sentences then percent transition_count (length sentences)
    else 0%float in
  let c_transition_words := fge transition_ratio 25%float in
  let consecutive := consecutive_count sentences in
  let c_no_consecutive := consecutive =? 0 in
  let headings := Re.find_headings content in
  let c_keyphrase_in_heading :=
    existsb (fun heading => contains (lower focus_keyphrase) (lower heading)) headings in
  let temp_slug :=
    Re.keep_class slug_class (replace (u " ") (u "-") (lower focus_keyphrase)) in
  let c_keyphrase_in_slug := truthy temp_slug in
  let checks :=
    [ ("focus_keyword", c_focus_keyword);
      ("keyword_in_title", c_keyword_in_title);
      ("title_length", c_title_length);
      ("keyword_in_meta", c_keyword_in_meta);
      ("meta_length", c_meta_length);
      ("keyword_first_100", c_keyword_first_100);
      ("min_words", c_min_words);
      ("internal_link", c_internal_link);
      ("external_link", c_external_link);
      ("image_alt", c_image_alt);
      ("keyword_density", c_keyword_density);
      ("transition_words", c_transition_words);
      ("no_consecutive_sentences", c_no_consecutive);
      ("keyphrase_in_heading", c_keyphrase_in_heading);
      ("keyphrase_in_slug", c_keyphrase_in_slug) ]%string in
  let validation_errors :=
    unless c_focus_keyword FocusKeywordMissing
    ++ unless c_keyword_in_title KeywordNotInTitle
    ++ unless c_title_length (TitleLength (length title))
    ++ unless c_keyword_in_meta KeywordNotInMeta
    ++ unless c_meta_length (MetaLength (length meta_description))
    ++ unless c_keyword_first_100 KeywordNotInFirst100
    ++ unless c_min_words (ContentTooShort word_count)
    ++ unless c_internal_link InternalLinkMissing
    ++ unless c_external_link ExternalLinkMissing
    ++ unless c_keyword_density (KeywordDensity keyword_density)
    ++ unless c_transition_words (FewTransitionWords transition_ratio)
    ++ unless c_no_consecutive (ConsecutiveSentences consecutive)
    ++ unless c_keyphrase_in_heading KeyphraseNotInHeading in
  let total_checks := length checks in
  let passed_checks := count_passed checks in
  let score := percent passed_checks total_checks in
  let is_valid := fge score 90%float && bool_decide (validation_errors = []) in
  let blocked := negb (truthy focus_keyphrase) || (length focus_keyphrase <? 3) in
  {| is_valid := if blocked then false else is_valid;
     score := score;
     passed_checks := Some passed_checks;
     total_checks := Some total_checks;
     checks := checks;
     errors := if blocked then CriticalNoFocusKeyword :: validation_errors
               else validation_errors |}.

(** The dictionary of the [except] branch. *)
Definition failed_report : report :=
  {| is_valid := false;
     score := 0%float;
     passed_checks := None;
     total_checks := None;
     checks := [];
     errors := [ValidationFailed] |}.

(** [_validate_yoast_green_criteria].  A missing keyphrase ([None]) passes the
    guarded checks 1 to 12 and raises [AttributeError] on
    [focus_keyphrase.lower()] at check 13 or 14, which the [except] branch
    turns into [failed_report]. *)
Definition _validate_yoast_green_criteria
    (content : str) (focus_keyphrase : option str) (title meta_description : str)
  : report :=
  match focus_keyphrase with
  | Some kp => validate_str content kp title meta_description
  | None => failed_report
  end.

(** The checks whose failure appends to [validation_errors]: all of them but
    [image_alt] and [keyphrase_in_slug]. *)
Definition critical_checks : list string :=
  [ "focus_keyword"; "keyword_in_title"; "title_length"; "keyword_in_meta";
    "meta_length"; "keyword_first_100"; "min_words"; "internal_link";
    "external_link"; "keyword_density"; "transition_words";
    "no_consecutive_sentences"; "keyphrase_in_heading" ]%string.

Fixpoint check_value (k : string) (cs : list (string * bool)) : option bool :=
  match cs with
  | [] => None
  | (k', b) :: r => if String.eqb k k' then Some b else check_value k r
  end.

(** No critical check failed. *)
Definition critical_ok (cs : list (string * bool)) : bool :=
  forallb (fun k => match check_value k cs with
                    | Some b => b
                    | None => false
                    end) critical_checks.

(** The text appended when the body has fewer than 300 words. *)
Definition extra_content : str := u "
<h3>Análise Técnica</h3>
<p>Este modelo apresenta especificações técnicas que o destacam no mercado atual. Com tecnologia moderna e design inovador, atende às expectativas dos usuários mais exigentes.</p>

<p>Por outro lado, a facilidade de uso é um dos pontos fortes deste equipamento. Dessa forma, tanto iniciantes quanto usuários experientes podem aproveitar todos os recursos disponíveis sem complicações.</p>

<h3>Comparativo de Mercado</h3>
<p>Quando comparamos com modelos similares, encontramos vantagens significativas em termos de custo-benefício. Além disso, a durabilidade e confiabilidade são características que justificam o investimento.</p>

<p>Consequentemente, para quem busca qualidade e economia, este modelo representa uma escolha acertada. Em primeiro lugar, os custos operacionais são reduzidos, garantindo economia a longo prazo.</p>

<h3>Suporte e Garantia</h3>
<p>Por fim, o suporte técnico especializado e a garantia estendida são diferenciais importantes. Portanto, você terá tranquilidade e segurança em sua compra, sabendo que conta com assistência qualificada sempre que necessário.</p>
".

(** The sentences appended when the density is under 0.5%. *)
Definition natural_contexts : list str :=
  [ u "<p>Este modelo oferece excelente desempenho para uso diário.</p>";
    u "<p>É ideal para uso profissional e doméstico.</p>";
    u "<p>Escolher o modelo certo é fundamental para bons resultados.</p>";
    u "<p>A tecnologia moderna garante eficiência energética.</p>";
    u "<p>Investir neste equipamento é uma decisão inteligente.</p>" ].

(** The text appended when the density is over 2.5%. *)
Definition dilution_content : str := u "

<h3>Instalação e Configuração</h3>
<p>A instalação é simples e rápida, permitindo que você comece a usar imediatamente. O design moderno combina com qualquer ambiente, seja residencial ou comercial.</p>

<p>A interface é intuitiva e fácil de navegar. Os recursos avançados são acessíveis através de menus bem organizados, facilitando o dia a dia dos usuários.</p>

<h3>Economia e Sustentabilidade</h3>
<p>O consumo energético é otimizado, contribuindo para a sustentabilidade e redução de custos operacionais. Isso representa economia real na conta de energia elétrica.</p>

<p>A manutenção preventiva é simples e econômica. Com cuidados básicos, você garante longa vida útil ao equipamento.</p>

<h3>Atendimento e Suporte</h3>
<p>O atendimento ao cliente é personalizado e eficiente. Nossa equipe técnica especializada está sempre pronta para ajudar com dúvidas e orientações.</p>

<p>A garantia estendida oferece tranquilidade adicional. Você conta com cobertura completa contra defeitos de fabricação.</p>

<h3>Benefícios de Longo Prazo</h3>
<p>O investimento se paga rapidamente através da economia operacional. Além da redução de custos, você obtém maior produtividade e eficiência no trabalho.</p>

<p>A tecnologia avançada garante compatibilidade com sistemas futuros. Você não precisará se preocupar com obsolescência prematura do equipamento.</p>
".

(** [_optimize_keyword_density].  The [try] has no raising statement on
    strings, so the [except] branch is never taken. *)
Definition density_of (keyword_count total_words : nat) : float :=
  if 0 <? total_words then percent keyword_count total_words else 0%float.

Definition _optimize_keyword_density (content focus_keyphrase : str) : str :=
  let text_only := Re.strip_tags content in
  let total_words := word_count text_only in
  let keyword_count := count (lower focus_keyphrase) (lower text_only) in
  let current_density := density_of keyword_count total_words in
  (* 1. at least 300 words *)
  let '(content, total_words, keyword_count, current_density) :=
    if total_words <? 300 then
      let content := content ++ extra_content in
      let text_only := Re.strip_tags content in
      let total_words := word_count text_only in
      let keyword_count := count (lower focus_keyphrase) (lower text_only) in
      (content, total_words, keyword_count, density_of keyword_count total_words)
    else (content, total_words, keyword_count, current_density) in
  (* 2. density into 0.5% - 2.5% *)
  if flt current_density 0.5%float then
    let target_count :=
      Z.max 2 (int_of_float (PrimFloat.mul (float_of_nat total_words) 0x1.eb851eb851eb8p-7%float)) in
    let additional_needed := (target_count - Z.of_nat keyword_count)%Z in
    if (0 <? additional_needed)%Z then
      fold_left (fun content context => content ++ u "
" ++ context)
        (take (Z.to_nat (Z.min additional_needed (Z.of_nat (length natural_contexts))))
           natural_contexts)
        content
    else content
  else if fgt current_density 2.5%float then content ++ dilution_content
  else content.

(** [re.sub(rf'\b{re.escape(word)}\b', '', s, flags=re.IGNORECASE)].  A
    boundary lies between two characters of which exactly one is a word
    character; beyond either end of the string there is none. *)
Definition is_word_at (c : option char) : bool :=
  match c with
  | Some c => isword c
  | None => false
  end.

Definition boundary (before after : option char) : bool :=
  xorb (is_word_at before) (is_word_at after).

Definition word_at (word s : str) (prev : option char) : bool :=
  boundary prev (head s)
  && istartswith word s
  && boundary (s !! (length word - 1)) (s !! length word).

Fixpoint remove_word_from (word s : str) (prev : option char) (skip : nat) : str :=
  match s with
  | [] => []
  | c :: r =>
      match skip with
      | S k => remove_word_from word r (Some c) k
      | O => if word_at word s prev
             then remove_word_from word r (Some c) (length word - 1)
             else c :: remove_word_from word r (Some c) 0
      end
  end.

Definition remove_word (word s : str) : str := remove_word_from word s None 0.

Definition title_extensions : list str :=
  [ u " - Melhor Custo Benefício"; u " - Análise e Preços";
    u " - Guia de Compra"; u " - Review Completa" ].

(** [_optimize_seo_title].  Nothing in the [try] raises on strings. *)
Definition _optimize_seo_title (title focus_keyphrase : str) : str :=
  let keyphrase_title := Py.title focus_keyphrase in
  let optimized :=
    if startswith (lower focus_keyphrase) (lower title) then title
    else
      let title_clean :=
        fold_left (fun title_clean word => remove_word word title_clean)
          (split_ws focus_keyphrase) title in
      let title_clean :=
        strip_by (in_chars (u " -|:")) (Re.sub_runs isspace (u " ") title_clean) in
      if truthy title_clean then keyphrase_title ++ u " - " ++ title_clean
      else keyphrase_title ++ u " - Análise Completa" in
  let optimized :=
    if 60 <? length optimized then
      let keyphrase_len := length keyphrase_title in
      let remaining := 57 - keyphrase_len in
      if 10 <? remaining then
        let suffix :=
          strip_by (in_chars (u " -"))
            (slice keyphrase_len (keyphrase_len + remaining) optimized) in
        keyphrase_title ++ suffix ++ u "..."
      else keyphrase_title ++ u " Review"
    else if length optimized <? 30 then
      (* the loop leaves after its first round *)
      match title_extensions with
      | ext :: _ =>
          let test_title := optimized ++ ext in
          if (30 <=? length test_title) && (length test_title <=? 60)
          then test_title else optimized
      | [] => optimized
      end
    else optimized in
  slice_to 60 optimized.

(** [re.sub(r'[...]', repl, s)] for a class of accented letters. *)
Definition sub_class (class : str) (repl : char) (s : str) : str :=
  map (fun c => if in_chars class c then repl else c) s.

(** [while len('-'.join(words)) > 50 and len(words) > 2: words.pop()] *)
Fixpoint pop_words (rounds : nat) (words : list str) : list str :=
  match rounds with
  | O => words
  | S k =>
      if (50 <? length (join (u "-") words)) && (2 <? length words)
      then pop_words k (removelast words)
      else words
  end.

(** [_optimize_slug_with_keyphrase]; [text] is not read. *)
Definition _optimize_slug_with_keyphrase (text focus_keyphrase : str) : str :=
  let slug_base := lower focus_keyphrase in
  let slug := slug_base in
  let slug := sub_class (u "àáâãäå") (ch "a") slug in
  let slug := sub_class (u "èéêë") (ch "e") slug in
  let slug := sub_class (u "ìíîï") (ch "i") slug in
  let slug := sub_class (u "òóôõö") (ch "o") slug in
  let slug := sub_class (u "ùúûü") (ch "u") slug in
  let slug := sub_class (u "ç") (ch "c") slug in
  let slug := sub_class (u "ñ") (ch "n") slug in
  let slug :=
    Re.keep_class
      (fun c => ((97 <=? c) && (c <=? 122) || (48 <=? c) && (c <=? 57))%N
                || isspace c || (c =? ch "-")%N) slug in
  let slug := Re.sub_runs isspace (u "-") slug in
  let slug := strip_by (N.eqb (ch "-")) (Re.sub_runs (N.eqb (ch "-")) (u "-") slug) in
  let slug :=
    if 50 <? length slug then
      let words := split (u "-") slug in
      join (u "-") (pop_words (length words) words)
    else slug in
  if truthy slug then slug else replace (u " ") (u "-") focus_keyphrase.

(** [_optimize_meta_description] *)
Definition truncated (meta_desc : str) : str := slice_to 152 meta_desc ++ u "...".

Definition _optimize_meta_description (meta_desc focus_keyphrase content : str) : str :=
  let meta_desc :=
    if negb (truthy meta_desc) || (length meta_desc <? 50) then
      let text_content := Re.strip_tags content in
      let paragraphs :=
        map strip
          (List.filter (fun p => 50 <? length (strip p))
             (split [Re.NL; Re.NL] text_content)) in
      let base_text :=
        match paragraphs with
        | p :: _ => p
        | [] => u "Conheça o " ++ focus_keyphrase ++ u " e suas principais características."
        end in
      focus_keyphrase ++ u ": " ++ slice_to 100 base_text
        ++ u ". Guia completo com análise detalhada."
    else meta_desc in
  let meta_desc :=
    if negb (contains (lower focus_keyphrase) (lower meta_desc))
    then focus_keyphrase ++ u " - " ++ meta_desc
    else meta_desc in
  let meta_desc :=
    if length meta_desc <? 120
    then meta_desc ++ u " Saiba tudo sobre " ++ focus_keyphrase ++ u " neste guia completo."
    else meta_desc in
  let meta_desc := if 155 <? length meta_desc then truncated meta_desc else meta_desc in
  if (length meta_desc <? 120) || (155 <? length meta_desc) then
    let meta_desc :=
      focus_keyphrase
        ++ u ": análise completa com características, preços e onde comprar. Guia definitivo para sua escolha ideal." in
    if 155 <? length meta_desc then truncated meta_desc
    else if length meta_desc <? 120 then meta_desc ++ u " Confira agora!"
    else meta_desc
  else meta_desc.

(** [_ensure_unique_keyphrase].  [publications] is what the query
    [SELECT DISTINCT focus_keyphrase FROM publications ...] returns, [None]
    when it raises, as it does on the table of [init_database], which has no
    such column; the list of used keyphrases then stays empty.  [mmdd] is
    [datetime.now().strftime('%m%d')].  The function writes nothing. *)
Definition suffixes : list str :=
  [ u "2025"; u "nova"; u "atualizada"; u "completa"; u "v2"; u "pro";
    u "premium"; u "especial"; u "definitiva"; u "avançada"; u "melhorada";
    u "atual"; u "moderna"; u "upgrade"; u "plus"; u "max" ].

Definition is_used (used_keyphrases : list str) (kp : str) : bool :=
  existsb (str_eqb kp) (map lower used_keyphrases).

(** The [for ... else] over the suffixes. *)
Fixpoint first_free (used_keyphrases : list str) (original : str) (sfx : list str)
  : option str :=
  match sfx with
  | [] => None
  | suffix :: rest =>
      let candidate := original ++ u " " ++ suffix in
      if negb (is_used used_keyphrases candidate) then Some candidate
      else first_free used_keyphrases original rest
  end.

Definition choose_keyphrase (used_keyphrases : list str) (mmdd keyphrase : str) : str :=
  let original_keyphrase := lower (strip keyphrase) in
  if is_used used_keyphrases original_keyphrase then
    match first_free used_keyphrases original_keyphrase suffixes with
    | Some candidate => candidate
    | None => original_keyphrase ++ u " " ++ mmdd
    end
  else original_keyphrase.

Definition _ensure_unique_keyphrase (publications : option (list str)) (mmdd keyphrase : str)
  : str :=
  let used_keyphrases :=
    match publications with
    | Some rows => rows
    | None => []
    end in
  choose_keyphrase used_keyphrases mmdd keyphrase.










End Code.

End PublicationManager.

(** ** [src/review/review_manager.py] *)

Module ReviewManager.

(** An article record: a dictionary from field names to text. *)
Definition get (article_data : gmap string str) (key : string) (default : str) : str :=
  match article_data !! key with
  | Some v => v
  | None => default
  end.

(** [_calculate_content_hash]; [encode] raises on a lone surrogate. *)
Definition content_for_hash (article_data : gmap string str) : str :=
  let titulo := get article_data "titulo" [] in
  let conteudo := get article_data "conteudo" [] in
  titulo ++ (match conteudo with
             | [] => []
             | _ :: _ => slice_to 200 conteudo
             end).

Definition _calculate_content_hash (article_data : gmap string str) : result str :=
  match encode_utf8 (content_for_hash article_data) with
  | Some bytes => Ok (MD5.hexdigest bytes)
  | None => Raise UnicodeEncodeError
  end.

(** The table [articles], by the two columns the duplicate check reads. *)
Record row := {
  row_titulo : str;
  row_content_hash : option str
}.

(** The persisted store behind [self.db_path]: [sqlite3.connect] raises when
    it cannot be opened, [cursor.execute] raises when the table has no
    column [content_hash] (the table that [init_database] creates has
    none). *)
Inductive store :=
| Unreachable
| Connected (has_hash_column : bool) (rows : list row).

Definition connect (db : store) : result (bool * list row) :=
  match db with
  | Unreachable => Raise OperationalError
  | Connected has_hash_column rows => Ok (has_hash_column, rows)
  end.

(** [SELECT id FROM articles WHERE content_hash = ?] and [cursor.fetchone()] *)
Definition select_by_hash (conn : bool * list row) (content_hash : str) : result bool :=
  let '(has_hash_column, rows) := conn in
  if has_hash_column
  then Ok (existsb (fun r => match row_content_hash r with
                             | Some h => str_eqb h content_hash
                             | None => false
                             end) rows)
  else Raise OperationalError.

(** [SELECT id FROM articles WHERE titulo = ?] and [cursor.fetchone()] *)
Definition select_by_title (conn : bool * list row) (titulo : str) : result bool :=
  Ok (existsb (fun r => str_eqb (row_titulo r) titulo) (snd conn)).

(** The body of the [try] of [_is_duplicate_article]. *)
Definition is_duplicate_lookup (db : store) (article_data : gmap string str) : result bool :=
  content_hash ← _calculate_content_hash article_data;
  conn ← connect db;
  by_hash ← select_by_hash conn content_hash;
  if (by_hash : bool) then Ok true
  else
    let titulo := get article_data "titulo" [] in
    match titulo with
    | _ :: _ =>
        by_title ← select_by_title conn titulo;
        if (by_title : bool) then Ok true else Ok false
    | [] => Ok false
    end.

(** [_is_duplicate_article]: [except Exception] logs and returns [False]. *)
Definition _is_duplicate_article (db : store) (article_data : gmap string str) : result bool :=
  try_except (is_duplicate_lookup db article_data) (fun _ => Ok false).

(** *** The review workflow

    A row of the table [articles], by the columns that the functions below
    read or set after the insertion: the texts, the workflow columns and the
    fingerprint.  The columns [tags], [produto_id], [produto_nome],
    [tipo_produto], [tom_usado], [score_seo], [generation_data] and
    [data_criacao] are written by the [INSERT] and not tracked. *)
Record article := {
  art_id : nat;
  art_titulo : str;
  art_slug : str;
  art_meta_descricao : str;
  art_conteudo : str;
  art_status : str;
  art_data_revisao : option str;
  art_comentario_revisor : option str;
  art_revisor_nome : option str;
  art_content_hash : option str
}.

(** The database file: whether [sqlite3.connect] opens it, whether the table
    has the column [content_hash], the rows in the order of their insertion
    and the largest id given so far ([AUTOINCREMENT]). *)
Record database := {
  reachable : bool;
  hash_column : bool;
  articles : list article;
  sequence : nat
}.

(** What the duplicate check sees of the database. *)
Definition store_of (db : database) : store :=
  if reachable db
  then Connected (hash_column db)
         (map (fun a => {| row_titulo := art_titulo a;
                           row_content_hash := art_content_hash a |}) (articles db))
  else Unreachable.

(** The outcome of [save_article_for_review]: the id of the new row, the
    [ValueError] raised on a duplicate, or the exception of a later step,
    which the [except] branch logs and raises again. *)
Inductive saved :=
| Saved (article_id : nat)
| DuplicateArticle
| SaveFailed (e : exn).

(** The row that the [INSERT] writes; [status] takes its default. *)
Definition new_article (article_id : nat) (article_data : gmap string str)
    (content_hash : str) : article :=
  {| art_id := article_id;
     art_titulo := get article_data "titulo" [];
     art_slug := get article_data "slug" [];
     art_meta_descricao := get article_data "meta_descricao" [];
     art_conteudo := get article_data "conteudo" [];
     art_status := u "pendente";
     art_data_revisao := None;
     art_comentario_revisor := None;
     art_revisor_nome := None;
     art_content_hash := Some content_hash |}.

(** [save_article_for_review] *)
Definition save_article_for_review (db : database) (article_data : gmap string str)
  : database * saved :=
  match _is_duplicate_article (store_of db) article_data with
  | Ok true => (db, DuplicateArticle)
  | Ok false =>
      if negb (reachable db) then (db, SaveFailed OperationalError)
      else
        match _calculate_content_hash article_data with
        | Raise e => (db, SaveFailed e)
        | Ok content_hash =>
            if hash_column db then
              let article_id := S (sequence db) in
              ({| reachable := reachable db;
                  hash_column := hash_column db;
                  articles := articles db ++ [new_article article_id article_data content_hash];
                  sequence := article_id |},
               Saved article_id)
            else (db, SaveFailed OperationalError)
        end
  | Raise e => (db, SaveFailed e)
  end.

Definition allowed_fields : list string :=
  [ "titulo"; "slug"; "meta_descricao"; "conteudo"; "tags";
    "comentario_revisor"; "status" ]%string.

(** [UPDATE articles SET ..., data_revisao = ?, revisor_nome = ?] on one
    row. *)
Definition set_fields (valid_updates : gmap string str) (now revisor : str) (a : article)
  : article :=
  {| art_id := art_id a;
     art_titulo := default (art_titulo a) (valid_updates !! "titulo");
     art_slug := default (art_slug a) (valid_updates !! "slug");
     art_meta_descricao := default (art_meta_descricao a) (valid_updates !! "meta_descricao");
     art_conteudo := default (art_conteudo a) (valid_updates !! "conteudo");
     art_status := default (art_status a) (valid_updates !! "status");
     art_data_revisao := Some now;
     art_comentario_revisor :=
       match valid_updates !! "comentario_revisor" with
       | Some c => Some c
       | None => art_comentario_revisor a
       end;
     art_revisor_nome := Some revisor;
     art_content_hash := art_content_hash a |}.

Definition has_id (article_id : nat) (a : article) : bool := art_id a =? article_id.

(** [update_article]; [now] is [datetime.now().strftime('%Y-%m-%d %H:%M:%S')].
    An exception of the database is logged and answered by [False]. *)
Definition update_article (db : database) (article_id : nat) (updates : gmap string str)
    (now revisor : str) : database * bool :=
  let valid_updates := filter (fun kv => kv.1 ∈ allowed_fields) updates in
  if bool_decide (valid_updates = ∅) then (db, false)
  else if negb (reachable db) then (db, false)
  else if existsb (has_id article_id) (articles db) then
    ({| reachable := reachable db;
        hash_column := hash_column db;
        articles := map (fun a => if has_id article_id a
                                  then set_fields valid_updates now revisor a else a)
                      (articles db);
        sequence := sequence db |},
     true)
  else (db, false).

(** [approve_article], [reject_article] and [mark_as_published] *)
Definition approve_article (db : database) (article_id : nat) (revisor comentario now : str)
  : database * bool :=
  update_article db article_id
    (<["status" := u "aprovado"]> (<["comentario_revisor" := comentario]> ∅)) now revisor.

Definition reject_article (db : database) (article_id : nat) (motivo revisor now : str)
  : database * bool :=
  update_article db article_id
    (<["status" := u "rejeitado"]> (<["comentario_revisor" := motivo]> ∅)) now revisor.

Definition mark_as_published (db : database) (article_id : nat) (publish_url : option str)
    (now : str) : database * bool :=
  let updates : gmap string str := <["status" := u "publicado"]> ∅ in
  let updates :=
    match publish_url with
    | Some ((_ :: _) as url) =>
        <["comentario_revisor" := u "Publicado em: " ++ url]> updates
    | _ => updates
    end in
  update_article db article_id updates now (u "Publisher").

(** [delete_article] *)
Definition delete_article (db : database) (article_id : nat) : database * bool :=
  if negb (reachable db) then (db, false)
  else if existsb (has_id article_id) (articles db) then
    ({| reachable := reachable db;
        hash_column := hash_column db;
        articles := List.filter (fun a => negb (has_id article_id a)) (articles db);
        sequence := sequence db |},
     true)
  else (db, false).

End ReviewManager.

(** ** Reference definitions and sample inputs of the properties *)

Import SEOOptimizer PublicationManager ReviewManager.

Definition keyphrase : str := u "canon pixma g3111".

(** An article that passes the fifteen checks. *)
Definition green_content : str := u "<p>A canon pixma g3111 imprime documentos e fotos com tanque de tinta de baixo custo. Esta impressora atende bem a casa e o pequeno escritório no dia a dia. Além disso, o tanque de tinta integrado reduz bastante o custo de cada página impressa. O modelo imprime, copia e digitaliza com boa velocidade e ótima definição. Portanto, quem imprime muito economiza tempo e dinheiro ao longo dos meses. Cada garrafa de tinta rende milhares de páginas em preto ou em cores. Também vale destacar a conexão sem fio para imprimir do celular ou do notebook. Esta impressora atende bem a casa e o pequeno escritório no dia a dia. Além disso, o tanque de tinta integrado reduz bastante o custo de cada página impressa. O modelo imprime, copia e digitaliza com boa velocidade e ótima definição. Portanto, quem imprime muito economiza tempo e dinheiro ao longo dos meses. Cada garrafa de tinta rende milhares de páginas em preto ou em cores. Também vale destacar a conexão sem fio para imprimir do celular ou do notebook. Quem escolhe a canon pixma g3111 leva um equipamento durável e econômico. Esta impressora atende bem a casa e o pequeno escritório no dia a dia. Além disso, o tanque de tinta integrado reduz bastante o custo de cada página impressa. O modelo imprime, copia e digitaliza com boa velocidade e ótima definição. Portanto, quem imprime muito economiza tempo e dinheiro ao longo dos meses. Cada garrafa de tinta rende milhares de páginas em preto ou em cores. Também vale destacar a conexão sem fio para imprimir do celular ou do notebook. Esta impressora atende bem a casa e o pequeno escritório no dia a dia. Além disso, o tanque de tinta integrado reduz bastante o custo de cada página impressa. O modelo imprime, copia e digitaliza com boa velocidade e ótima definição.</p>
<h2>Vantagens da Canon Pixma G3111</h2>
<p>Veja mais em <a href=https://blog.creativecopias.com.br/>nosso blog</a> e no <a href=https://www.canon.com.br>site oficial</a>.</p>".

Definition green_title : str := u "Canon Pixma G3111 - Melhor Custo Benefício".

Definition green_meta : str := u "Canon Pixma G3111: impressora multifuncional com tanque de tinta, baixo custo por página e ótima qualidade. Guia completo com análise.".

(** The same article about a keyphrase of three accented letters, which
    leaves nothing for the slug check. *)
Definition accented_keyphrase : str := u "áéí".

Definition accented_content : str :=
  replace (u "Canon Pixma G3111") accented_keyphrase
    (replace keyphrase accented_keyphrase green_content).

Definition accented_title : str := u "Áéí - Melhor Custo Benefício do Mercado".

Definition accented_meta : str :=
  u "Áéí: impressora multifuncional com tanque de tinta, baixo custo por página e ótima qualidade. Guia completo com análise. Confira.".

(** An article record of the review store. *)
Definition sample_article : gmap string str :=
  <["titulo" := u "Canon Pixma G3111"]>
    (<["conteudo" := u "<p>Impressora com tanque de tinta.</p>"]> ∅).

(** A title that holds a lone surrogate, which UTF-8 cannot encode. *)
Definition surrogate_article : gmap string str :=
  <["titulo" := [55357%N]]> ∅.

(** The fingerprint as the specification words it: the hash of the title
    followed by the first 200 characters of the body without its markup. *)
Definition spec_fingerprint (article_data : gmap string str) : result str :=
  let titulo := get article_data "titulo" [] in
  let stripped := Re.strip_tags (get article_data "conteudo" []) in
  match encode_utf8 (titulo ++ slice_to 200 stripped) with
  | Some bytes => Ok (MD5.hexdigest bytes)
  | None => Raise UnicodeEncodeError
  end.

(** A body of 1000 words in which the keyphrase does not occur. *)
Definition body_1000_words : str :=
  u "<p>" ++ concat (repeat (u "texto ") 1000) ++ u "</p>".

(** The number of times the keyphrase occurs in a body, as the density pass
    and the validator count it. *)
Definition occurrences {U : Unicode} (focus_keyphrase content : str) : nat :=
  count (lower focus_keyphrase) (lower (Re.strip_tags content)).

(** A meta description of 177 characters that names the keyphrase at its
    end. *)
Definition long_meta : str :=
  u "Conheça a melhor impressora multifuncional com tanque de tinta integrado do mercado, com alta qualidade de impressão, baixo custo por página e conexão sem fio: Canon Pixma G3111".

(** The slugs of the data model: not empty, and over [a-z0-9-]. *)
Definition slug_char (c : char) : bool :=
  ((97 <=? c) && (c <=? 122) || (48 <=? c) && (c <=? 57) || (c =? ch "-"))%N.

Definition valid_slug (slug : str) : bool :=
  truthy slug && forallb slug_char slug.



(** A body of 251 words that opens a tag and never closes it. *)
Definition open_body : str := u "<" ++ concat (repeat (u " texto") 250).



(** Articles for [optimize_article]: one that goes through, and two on which
    a step raises (a product name of one space gives a keyword without a
    word; a title that is a number has no [lower]). *)
Definition plain_article : gmap string pyval :=
  <["titulo" := VStr (u "Canon PIXMA G3111 Review")]>
    (<["produto_nome" := VStr (u "Canon PIXMA G3111")]> ∅).

Definition blank_product : gmap string pyval :=
  <["produto_nome" := VStr (u " ")]> (<["tags" := VList [VStr (u "toner")]]> ∅).

Definition numeric_title : gmap string pyval :=
  <["titulo" := VInt 7]> (<["conteudo" := VStr (u "<p>Texto.</p>")]> ∅).

(** Stand-ins for the three abstract steps, to run [optimize_article]. *)
Definition keep_content (content : pyval) (keyword : str) : pyval := content.
Definition no_data (optimized : gmap string pyval) : result pyval := Ok VNone.


(** A character of a line of plain text: no line feed and no [<]. *)
Definition plain_char (c : char) : Prop := c <> Re.NL /\ c <> Re.LT.

(** * Properties *)

(** ** The builtins on sample inputs *)

Example decode_literal : u "Análise" = [65; 110; 225; 108; 105; 115; 101]%N.
Proof. reflexivity. Qed.

Example title_of_keyphrase : title keyphrase = u "Canon Pixma G3111".
Proof. reflexivity. Qed.

Example count_does_not_overlap : count (u "aa") (u "aaaaa") = 2.
Proof. reflexivity. Qed.

Example split_keeps_empty_pieces :
  split (u "--") (u "a--b----") = [u "a"; u "b"; []; []].
Proof. reflexivity. Qed.

Example strip_tags_examples :
  Re.strip_tags (u "<p>short</p>") = u "short"
  /\ Re.strip_tags (u "a<>b < c") = u "a<>b < c"
  /\ Re.strip_tags (u "x<<a>y <b c> z") = u "xy  z".
Proof. repeat split; reflexivity. Qed.

Example find_headings_example :
  Re.find_headings (u "<H2 class=x>Um</h3> <h3>dois</h2><h2>a
b</h2><h2></h2>") = [u "Um"; u "dois"; []].
Proof. reflexivity. Qed.

(** The white space and the word characters of [latin1]. *)
Example latin1_white_space :
  List.filter isspace (map N.of_nat (seq 0 256))
  = [9; 10; 11; 12; 13; 28; 29; 30; 31; 32; 133; 160]%N.
Proof. vm_compute. reflexivity. Qed.

Example latin1_word_characters :
  List.filter (fun c => isword c && negb ((48 <=? c) && (c <=? 57) || (65 <=? c) && (c <=? 90)
                                           || (97 <=? c) && (c <=? 122))%N)
    (map N.of_nat (seq 0 192))
  = [95; 170; 178; 179; 181; 185; 186; 188; 189; 190]%N.
Proof. vm_compute. reflexivity. Qed.

Example latin1_decomposition :
  nfd (u "Impressão à Laser") = [73; 109; 112; 114; 101; 115; 115; 97; 771; 111; 32;
                                 97; 768; 32; 76; 97; 115; 101; 114]%N.
Proof. vm_compute. reflexivity. Qed.

Example md5_empty : MD5.hexdigest [] = u "d41d8cd98f00b204e9800998ecf8427e".
Proof. vm_compute. reflexivity. Qed.

Example md5_abc : MD5.hexdigest (u "abc") = u "900150983cd24fb0d6963f7d28e17f72".
Proof. vm_compute. reflexivity. Qed.

Example md5_two_blocks :
  MD5.hexdigest (repeat 97%N 119) = u "8a7bd0732ed6a28ce75f6dabc90e1613".
Proof. vm_compute. reflexivity. Qed.

(** ** The validation report *)

Section ValidatorFacts.
Context {U : Unicode}.

Lemma unless_app_nil (b : bool) (e : violation) (l : list violation) :
  unless b e ++ l = [] <-> b = true /\ l = [].
Proof.
  destruct b; simpl; split.
  - intros ->. split; reflexivity.
  - intros [_ ->]. reflexivity.
  - discriminate.
  - intros [H _]. discriminate.
Qed.

Lemma unless_nil (b : bool) (e : violation) : unless b e = [] <-> b = true.
Proof. destruct b; simpl; split; congruence. Qed.

(** Fourteen of the fifteen checks are needed to reach 90. *)
Lemma score_threshold (passed : nat) :
  passed <= 15 -> fge (percent passed 15) 90%float = (14 <=? passed).
Proof.
  intros H.
  do 16 (destruct passed as [|passed]; [vm_compute; reflexivity|]).
  lia.
Qed.

(** The test that blocks publication is the negation of the first check. *)
Lemma blocked_is_failed_check (kp : str) :
  negb (truthy kp) || (length kp <? 3) = negb (truthy kp && (3 <=? length kp)).
Proof.
  destruct kp as [|a [|b [|c r]]]; reflexivity.
Qed.

End ValidatorFacts.

(** C1.  For a keyphrase that is a string, the report carries
    [score = passed / total * 100] over its fifteen checks.  The article is
    valid exactly when the score is at least 90 and no critical check
    failed, the critical checks being the thirteen that record a violation.
    A focus keyphrase that is empty or missing makes the article invalid
    whatever the score. *)
Theorem validator_report_sound {U : Unicode}
    (content title meta_description : str) (focus_keyphrase : option str) :
  let r := _validate_yoast_green_criteria content focus_keyphrase title meta_description in
  (forall kp, focus_keyphrase = Some kp ->
     length (checks r) = 15 /\
     passed_checks r = Some (count_passed (checks r)) /\
     total_checks r = Some (length (checks r)) /\
     score r = percent (count_passed (checks r)) (length (checks r)))
  /\ (is_valid r = true <-> fge (score r) 90%float = true /\ critical_ok (checks r) = true)
  /\ (critical_ok (checks r) = true <-> errors r = [])
  /\ (focus_keyphrase = None \/ focus_keyphrase = Some [] -> is_valid r = false).
Proof.
  destruct focus_keyphrase as [kp|]; cbv zeta.
  - unfold _validate_yoast_green_criteria.
    split; [|split; [|split]].
    + intros kp' _. repeat split; reflexivity.
    + unfold validate_str. cbv zeta.
      rewrite blocked_is_failed_check.
      cbn [is_valid score checks].
      match goal with
      | |- context [fge ?s 90%float] => generalize s
      end.
      intros sc.
      unfold critical_ok.
      cbn [forallb critical_checks check_value String.eqb Ascii.eqb Bool.eqb].
      match goal with
      | |- context [bool_decide (?l = [])] =>
          assert (Herr : bool_decide (l = []) = true <-> l = [])
            by (rewrite bool_decide_eq_true; reflexivity);
          generalize dependent (bool_decide (l = []))
      end.
      intros bd Herr.
      rewrite !unless_app_nil, unless_nil in Herr.
      match goal with
      | |- _ <-> _ /\ ?chain = true =>
          assert (Hall : chain = true <-> bd = true)
            by (rewrite Herr, ?andb_true_r, !andb_true_iff; tauto)
      end.
      clear Herr.
      destruct (truthy kp && (3 <=? length kp)); cbn [negb andb] in *.
      * rewrite andb_true_iff, Hall. reflexivity.
      * split; [discriminate | intros [_ H]; discriminate].
    + unfold validate_str. cbv zeta.
      rewrite blocked_is_failed_check.
      cbn [errors checks].
      unfold critical_ok.
      cbn [forallb critical_checks check_value String.eqb Ascii.eqb Bool.eqb].
      destruct (truthy kp && (3 <=? length kp)); cbn [negb andb].
      * rewrite !unless_app_nil, unless_nil, ?andb_true_r, !andb_true_iff. tauto.
      * split; discriminate.
    + intros [H|H]; [discriminate|]. injection H as ->. reflexivity.
  - split; [|split; [|split]].
    + intros kp H. discriminate.
    + simpl. split; [discriminate|]. intros [_ H]. discriminate.
    + simpl. split; discriminate.
    + reflexivity.
Qed.

Example green_article_is_valid :
  let r := _validate_yoast_green_criteria green_content (Some keyphrase)
             green_title green_meta in
  is_valid r = true /\ passed_checks r = Some 15 /\ errors r = []
  /\ score r = 100%float.
Proof. vm_compute. repeat split; reflexivity. Qed.

Example short_article_is_rejected :
  let r := _validate_yoast_green_criteria (u "<p>short</p>") (Some keyphrase)
             green_title green_meta in
  is_valid r = false
  /\ passed_checks r = Some 8
  /\ errors r = [ KeywordNotInFirst100; ContentTooShort 1; InternalLinkMissing;
                  ExternalLinkMissing; KeywordDensity 0%float; FewTransitionWords 0%float;
                  KeyphraseNotInHeading ].
Proof. vm_compute. repeat split; reflexivity. Qed.

(** A keyphrase without a letter or digit of [a-z0-9] fails the slug check,
    which is not critical: the article is valid with 14 checks of 15. *)
Example slug_check_is_not_critical :
  let r := _validate_yoast_green_criteria accented_content (Some accented_keyphrase)
             accented_title accented_meta in
  check_value "keyphrase_in_slug" (checks r) = Some false
  /\ passed_checks r = Some 14
  /\ errors r = []
  /\ is_valid r = true.
Proof. vm_compute. repeat split; reflexivity. Qed.

(** ** The duplicate check and the content fingerprint *)

Lemma try_except_raises {A : Type} (body : result A) (handler : exn -> result A) (e : exn) :
  body = Raise e -> try_except body handler = handler e.
Proof. intros ->. reflexivity. Qed.

Lemma unreachable_lookup_raises (article_data : gmap string str) :
  raises (is_duplicate_lookup Unreachable article_data).
Proof.
  unfold is_duplicate_lookup.
  destruct (_calculate_content_hash article_data) as [h|e]; simpl.
  - exists OperationalError. reflexivity.
  - exists e. reflexivity.
Qed.

Example duplicate_found_by_title :
  _is_duplicate_article
    (Connected true [ {| row_titulo := u "Canon Pixma G3111"; row_content_hash := None |} ])
    sample_article
  = Ok true.
Proof. vm_compute. reflexivity. Qed.

(** The same stored article is not reported when the table has no column
    [content_hash], as in the schema of [init_database]. *)
Example duplicate_missed_without_hash_column :
  _is_duplicate_article
    (Connected false [ {| row_titulo := u "Canon Pixma G3111"; row_content_hash := None |} ])
    sample_article
  = Ok false.
Proof. vm_compute. reflexivity. Qed.

Example surrogate_title_raises :
  is_duplicate_lookup (Connected true []) surrogate_article = Raise UnicodeEncodeError
  /\ _is_duplicate_article (Connected true []) surrogate_article = Ok false.
Proof. vm_compute. split; reflexivity. Qed.

(** C2, as stated, fails: with the store unreachable the lookup raises and
    the duplicate check answers [False], "not a duplicate". *)
Lemma duplicate_check_unreachable_counterexample :
  raises (is_duplicate_lookup Unreachable sample_article)
  /\ _is_duplicate_article Unreachable sample_article = Ok false.
Proof.
  split.
  - apply unreachable_lookup_raises.
  - vm_compute. reflexivity.
Qed.

(** C2, amended.  When the store is unreachable or the lookup raises, the
    duplicate check catches the exception and returns [False]: no error
    reaches the caller. *)
Theorem duplicate_check_fails_open (db : store) (article_data : gmap string str) :
  db = Unreachable \/ raises (is_duplicate_lookup db article_data) ->
  _is_duplicate_article db article_data = Ok false.
Proof.
  intros H.
  assert (Hr : raises (is_duplicate_lookup db article_data)).
  { destruct H as [-> | H]; [apply unreachable_lookup_raises | exact H]. }
  destruct Hr as [e He].
  unfold _is_duplicate_article.
  rewrite (try_except_raises _ _ e He). reflexivity.
Qed.

Lemma duplicate_check_fails_open_witness :
  _is_duplicate_article (Connected false []) sample_article = Ok false.
Proof.
  apply (duplicate_check_fails_open (Connected false []) sample_article).
  right. exists OperationalError. vm_compute. reflexivity.
Defined.

Example sample_content_hash :
  _calculate_content_hash sample_article = Ok (u "e2fbf90b24c50a92894865bbac5b60f9")
  /\ spec_fingerprint sample_article = Ok (u "035ea6a013d7b4e0de66e0c213c6bcf9").
Proof. vm_compute. split; reflexivity. Qed.

(** The text that is hashed: the conditional on the body is a plain slice. *)
Lemma content_for_hash_unfold (article_data : gmap string str) :
  content_for_hash article_data =
    default [] (article_data !! "titulo")
    ++ take 200 (default [] (article_data !! "conteudo")).
Proof.
  unfold content_for_hash, get, slice_to.
  destruct (article_data !! "titulo") as [t|];
    destruct (article_data !! "conteudo") as [[|c r]|]; reflexivity.
Qed.

(** C3, as stated, fails: the code hashes the marked-up body. *)
Lemma content_hash_stripped_counterexample :
  _calculate_content_hash sample_article <> spec_fingerprint sample_article.
Proof. vm_compute. discriminate. Qed.

(** C3, amended.  The fingerprint is the MD5 digest of the UTF-8 encoding of
    the title followed by the first 200 characters of the body as it is,
    markup included; a missing field counts as empty. *)
Theorem content_hash_of_raw_body (article_data : gmap string str) :
  let titulo := default [] (article_data !! "titulo") in
  let conteudo := default [] (article_data !! "conteudo") in
  _calculate_content_hash article_data =
    match encode_utf8 (titulo ++ take 200 conteudo) with
    | Some bytes => Ok (MD5.hexdigest bytes)
    | None => Raise UnicodeEncodeError
    end.
Proof.
  cbv zeta. unfold _calculate_content_hash.
  rewrite content_for_hash_unfold. reflexivity.
Qed.

(** Two articles with the same title whose bodies agree on their first 200
    characters have the same fingerprint. *)
Corollary content_hash_reads_200_characters (a b : gmap string str) :
  a !! "titulo" = b !! "titulo" ->
  take 200 (default [] (a !! "conteudo")) = take 200 (default [] (b !! "conteudo")) ->
  _calculate_content_hash a = _calculate_content_hash b.
Proof.
  intros Ht Hc. unfold _calculate_content_hash.
  rewrite !content_for_hash_unfold.
  unfold str in *. rewrite Ht, Hc. reflexivity.
Qed.

(** ** The keyword-density pass *)

Section DensityPass.
Context {U : Unicode}.

Lemma fold_left_append (contexts : list str) : forall content,
  fold_left (fun content context => content ++ u "
" ++ context) contexts content
  = content ++ concat (map (fun context => Re.NL :: context) contexts).
Proof.
  induction contexts as [|x l IH]; intros content; cbn [fold_left map concat].
  - rewrite app_nil_r. reflexivity.
  - rewrite IH, <- !app_assoc. reflexivity.
Qed.

(** Whatever the keyphrase, the density pass only appends, and what it
    appends is taken from three texts that do not name the keyphrase: the
    padding, then either the dilution or the first sentences of
    [natural_contexts]. *)
Lemma keyword_density_appends_fixed_text (content focus_keyphrase : str) :
  exists pad tail,
    (pad = [] \/ pad = extra_content)
    /\ (tail = dilution_content
        \/ exists k, tail = concat (map (fun context => Re.NL :: context)
                                      (take k natural_contexts)))
    /\ _optimize_keyword_density content focus_keyphrase = content ++ pad ++ tail.
Proof.
  unfold _optimize_keyword_density. cbv zeta.
  destruct (word_count (Re.strip_tags content) <? 300).
  - exists extra_content.
    match goal with
    | |- context [if flt ?a ?b then _ else _] => destruct (flt a b)
    end.
    + match goal with
      | |- context [if (0 <? ?z)%Z then _ else _] => destruct (0 <? z)%Z
      end.
      * rewrite fold_left_append. eexists. split; [right; reflexivity|].
        split; [right; eexists; reflexivity|].
        rewrite <- app_assoc. reflexivity.
      * exists []. split; [right; reflexivity|].
        split; [right; exists 0; reflexivity|].
        rewrite app_nil_r. reflexivity.
    + match goal with
      | |- context [if fgt ?a ?b then _ else _] => destruct (fgt a b)
      end.
      * exists dilution_content. split; [right; reflexivity|].
        split; [left; reflexivity|].
        rewrite <- app_assoc. reflexivity.
      * exists []. split; [right; reflexivity|].
        split; [right; exists 0; reflexivity|].
        rewrite app_nil_r. reflexivity.
  - exists []. cbn [app].
    match goal with
    | |- context [if flt ?a ?b then _ else _] => destruct (flt a b)
    end.
    + match goal with
      | |- context [if (0 <? ?z)%Z then _ else _] => destruct (0 <? z)%Z
      end.
      * rewrite fold_left_append. eexists. split; [left; reflexivity|].
        split; [right; eexists; reflexivity|]. reflexivity.
      * exists []. split; [left; reflexivity|].
        split; [right; exists 0; reflexivity|].
        rewrite app_nil_r. reflexivity.
    + match goal with
      | |- context [if fgt ?a ?b then _ else _] => destruct (fgt a b)
      end.
      * exists dilution_content. split; [left; reflexivity|].
        split; [left; reflexivity|]. reflexivity.
      * exists []. split; [left; reflexivity|].
        split; [right; exists 0; reflexivity|].
        rewrite app_nil_r. reflexivity.
Qed.


End DensityPass.

(** C4 at the failing input.  On a body of 1000 words without the keyphrase
    the pass appends the five sentences of [natural_contexts], none of which
    names the keyphrase: the body still has no occurrence, and 5 to 25 were
    promised. *)
Theorem keyword_density_pass_adds_no_keyphrase :
  word_count (Re.strip_tags body_1000_words) = 1000
  /\ occurrences keyphrase body_1000_words = 0
  /\ _optimize_keyword_density body_1000_words keyphrase
     = body_1000_words ++ concat (map (fun c => Re.NL :: c) natural_contexts)
  /\ occurrences keyphrase (_optimize_keyword_density body_1000_words keyphrase) = 0.
Proof. vm_compute. repeat split; reflexivity. Qed.

Example short_body_is_padded :
  word_count (Re.strip_tags (_optimize_keyword_density (u "<p>short</p>") keyphrase)) = 158.
Proof. vm_compute. reflexivity. Qed.

(** ** The composers of title, meta description and slug *)

Section MetaLength.
Context {U : Unicode}.

Lemma truncated_length (s : str) : 155 < length s -> length (truncated s) = 155.
Proof.
  intros H. unfold truncated, slice_to.
  rewrite length_app, length_take.
  change (length (u "...")) with 3. lia.
Qed.

(** The length of the description is forced into the range whenever the
    keyphrase has three characters or more: what can go wrong is its
    content. *)
Lemma meta_description_length (meta_desc focus_keyphrase content : str) :
  3 <= length focus_keyphrase ->
  120 <= length (_optimize_meta_description meta_desc focus_keyphrase content) <= 155.
Proof.
  intros Hkp. unfold _optimize_meta_description. cbv zeta.
  match goal with
  | |- context [if (length ?m <? 120) || (155 <? length ?m) then _ else _] =>
      generalize m
  end.
  intros m.
  destruct ((length m <? 120) || (155 <? length m)) eqn:E.
  - match goal with
    | |- context [truncated ?t] => set (t0 := t)
    end.
    assert (Ht : length t0 = length focus_keyphrase + 102).
    { unfold t0. rewrite length_app. reflexivity. }
    destruct (155 <? length t0) eqn:E1.
    + apply Nat.ltb_lt in E1. rewrite truncated_length by exact E1. lia.
    + apply Nat.ltb_ge in E1.
      destruct (length t0 <? 120) eqn:E2.
      * apply Nat.ltb_lt in E2. rewrite length_app.
        change (length (u " Confira agora!")) with 15. lia.
      * apply Nat.ltb_ge in E2. lia.
  - apply orb_false_iff in E. destruct E as [E1 E2].
    apply Nat.ltb_ge in E1. apply Nat.ltb_ge in E2. lia.
Qed.

End MetaLength.

Section Prefixes.

Lemma startswith_app (p r : str) : startswith p (p ++ r) = true.
Proof.
  induction p as [|a p IH]; [reflexivity|].
  cbn [app startswith]. rewrite N.eqb_refl. exact IH.
Qed.

Lemma startswith_prefix (p s : str) :
  startswith p s = true <-> exists r, s = p ++ r.
Proof.
  split.
  - revert s. induction p as [|a p IH]; intros s H.
    + exists s. reflexivity.
    + destruct s as [|b s]; [discriminate|].
      cbn [startswith] in H. apply andb_true_iff in H. destruct H as [Hab H].
      apply N.eqb_eq in Hab. subst b.
      destruct (IH s H) as [r ->]. exists r. reflexivity.
  - intros [r ->]. apply startswith_app.
Qed.

Lemma map_take {A B : Type} (f : A -> B) (l : list A) :
  forall n, map f (take n l) = take n (map f l).
Proof.
  induction l as [|x l IH]; intros [|n]; cbn [take map]; try reflexivity.
  rewrite IH. reflexivity.
Qed.

End Prefixes.

(** What [_optimize_seo_title] does keep for every title, with the tables of
    [latin1]: at most 60 characters, and the keyphrase in front. *)
Lemma seo_title_upper_bound_and_prefix (title : str) :
  let out := _optimize_seo_title title keyphrase in
  length out <= 60 /\ startswith keyphrase (lower out) = true.
Proof.
  cbv zeta. unfold _optimize_seo_title. cbv zeta.
  split.
  { unfold slice_to. rewrite length_take. lia. }
  change (Py.title keyphrase) with (u "Canon Pixma G3111").
  change (lower keyphrase) with keyphrase.
  change (@lower latin1) with (map latin1_lower1).
  set (kt := u "Canon Pixma G3111").
  assert (Hkt : forall r, exists r', map latin1_lower1 (kt ++ r) = keyphrase ++ r').
  { intros r. exists (map latin1_lower1 r). rewrite map_app. reflexivity. }
  match goal with
  | |- context [slice_to 60 ?o] => set (optimized := o)
  end.
  assert (H : exists r, map latin1_lower1 optimized = keyphrase ++ r).
  { unfold optimized. clear optimized.
    match goal with
    | |- context [if 60 <? length ?o then _ else _] => set (optimized0 := o)
    end.
    assert (H0 : exists r, map latin1_lower1 optimized0 = keyphrase ++ r).
    { unfold optimized0.
      destruct (startswith keyphrase (map latin1_lower1 title)) eqn:E.
      - apply startswith_prefix. exact E.
      - match goal with
        | |- context [if ?b then _ else _] => destruct b
        end; apply Hkt. }
    clearbody optimized0.
    destruct (60 <? length optimized0).
    - change (10 <? 57 - length kt) with true. cbv iota. apply Hkt.
    - destruct (length optimized0 <? 30); [|exact H0].
      cbn [title_extensions].
      match goal with
      | |- context [if ?b then _ else _] => destruct b
      end; [|exact H0].
      destruct H0 as [r Hr]. exists (r ++ map latin1_lower1 (u " - Melhor Custo Benefício")).
      rewrite map_app, Hr, app_assoc. reflexivity. }
  destruct H as [r Hr].
  apply startswith_prefix. unfold slice_to.
  rewrite map_take, Hr.
  rewrite take_app_ge by (vm_compute; lia).
  eexists. reflexivity.
Qed.

Section SlugCharacters.
Context {U : Unicode}.
Variable Q : char -> Prop.

Lemma sub_runs_Forall (p : char -> bool) (repl s : str) :
  Forall Q repl ->
  Forall (fun c => p c = false -> Q c) s ->
  forall in_run, Forall Q (Re.sub_runs_from p repl s in_run).
Proof.
  intros Hrepl Hs. induction Hs as [|c s Hc _ IH]; intros in_run; cbn [Re.sub_runs_from].
  - constructor.
  - destruct (p c) eqn:E.
    + destruct in_run; [apply IH|]. apply Forall_app. split; [exact Hrepl | apply IH].
    + constructor; [apply Hc; reflexivity | apply IH].
Qed.

Lemma lstrip_by_Forall (p : char -> bool) (s : str) :
  Forall Q s -> Forall Q (lstrip_by p s).
Proof.
  induction 1 as [|c s Hc Hs IH]; cbn [lstrip_by]; [constructor|].
  destruct (p c); [exact IH | constructor; assumption].
Qed.

Lemma strip_by_Forall (p : char -> bool) (s : str) :
  Forall Q s -> Forall Q (strip_by p s).
Proof.
  intros H. unfold strip_by, rstrip_by.
  apply Forall_rev, lstrip_by_Forall, Forall_rev, lstrip_by_Forall, H.
Qed.

Lemma split_from_Forall (sep s : str) :
  Forall Q s -> forall skip cur, Forall Q cur ->
  Forall (Forall Q) (split_from sep s skip cur).
Proof.
  induction 1 as [|c s Hc Hs IH]; intros skip cur Hcur; cbn [split_from].
  - constructor; [apply Forall_rev, Hcur | constructor].
  - destruct skip as [|k]; [|apply IH, Hcur].
    destruct (startswith sep (c :: s)).
    + constructor; [apply Forall_rev, Hcur | apply IH; constructor].
    + apply IH. constructor; assumption.
Qed.

Lemma join_Forall (sep : str) (words : list str) :
  Forall Q sep -> Forall (Forall Q) words -> Forall Q (join sep words).
Proof.
  intros Hsep. induction 1 as [|w words Hw Hws IH]; cbn [join]; [constructor|].
  destruct words as [|w' words]; [exact Hw|].
  apply Forall_app. split; [exact Hw|].
  apply Forall_app. split; [exact Hsep | exact IH].
Qed.

Lemma removelast_Forall {A : Type} (P : A -> Prop) (l : list A) :
  Forall P l -> Forall P (removelast l).
Proof.
  induction 1 as [|x l Hx Hl IH]; cbn [removelast]; [constructor|].
  destruct l; [constructor | constructor; assumption].
Qed.

Lemma pop_words_Forall (rounds : nat) : forall words,
  Forall (Forall Q) words -> Forall (Forall Q) (pop_words rounds words).
Proof.
  induction rounds as [|k IH]; intros words H; cbn [pop_words]; [exact H|].
  match goal with
  | |- context [if ?b then _ else _] => destruct b
  end; [|exact H].
  apply IH, removelast_Forall, H.
Qed.

End SlugCharacters.

(** What [_optimize_slug_with_keyphrase] does keep for every keyphrase: its
    result is a slug of the data model unless the filtered keyphrase is
    empty, in which case it is the raw keyphrase with hyphens for spaces. *)
Lemma slug_valid_or_fallback {U : Unicode} (text focus_keyphrase : str) :
  let out := _optimize_slug_with_keyphrase text focus_keyphrase in
  valid_slug out = true \/ out = replace (u " ") (u "-") focus_keyphrase.
Proof.
  cbv zeta. unfold _optimize_slug_with_keyphrase. cbv zeta.
  match goal with
  | |- context [if truthy ?s then _ else _] => set (slug := s)
  end.
  destruct (truthy slug) eqn:E; [left | right; reflexivity].
  unfold valid_slug. rewrite E. cbn [andb].
  set (Q := fun c => slug_char c = true).
  assert (Hhyphen : Forall Q (u "-")) by (repeat constructor).
  assert (Hslug : Forall Q slug).
  { unfold slug.
    match goal with
    | |- context [if 50 <? length ?s then _ else _] => set (cut := s)
    end.
    assert (Hcut : Forall Q cut).
    { unfold cut. apply strip_by_Forall.
      apply sub_runs_Forall; [exact Hhyphen|].
      eapply Forall_impl; [|intros c Hc _; exact Hc].
      apply sub_runs_Forall; [exact Hhyphen|].
      apply Forall_forall. intros c Hc Hspace.
      apply list_elem_of_In, filter_In in Hc. destruct Hc as [_ Hc].
      rewrite Hspace, orb_false_r in Hc. exact Hc. }
    destruct (50 <? length cut); [|exact Hcut].
    apply join_Forall; [exact Hhyphen|].
    apply pop_words_Forall. apply split_from_Forall; [exact Hcut | constructor]. }
  apply forallb_forall. intros c Hc.
  rewrite Forall_forall in Hslug. apply Hslug, list_elem_of_In, Hc.
Qed.

(** C6 at failing inputs.  [_optimize_meta_description] cuts a long
    description after 152 characters and loses the keyphrase that stood at
    its end; [optimize_meta_description_yoast] adds one call to action to a
    short description and stops at 72 characters. *)
Theorem meta_description_failing_inputs :
  (let out := _optimize_meta_description long_meta keyphrase [] in
   length long_meta = 177
   /\ out = slice_to 152 long_meta ++ u "..."
   /\ length out = 155
   /\ contains (lower keyphrase) (lower out) = false)
  /\ (let out := optimize_meta_description_yoast (u "Boa impressora.") keyphrase in
      out = u "Canon Pixma G3111: Boa impressora. Confira características e benefícios."
      /\ length out = 72).
Proof. vm_compute. repeat split; reflexivity. Qed.

(** C7 at failing inputs.  [_optimize_seo_title] cuts a title of more than
    60 characters to the 40 characters after the keyphrase and trims them,
    which leaves 20 characters when they are blank; [optimize_title_yoast]
    returns a title that names the keyphrase as it is, whatever its
    length. *)
Theorem title_failing_inputs :
  (let out := _optimize_seo_title (u "canon pixma g3111" ++ repeat (ch " ") 50) keyphrase in
   out = u "Canon Pixma G3111..." /\ length out = 20)
  /\ (let out := optimize_title_yoast (u "Canon PIXMA G3111 Review") keyphrase in
      out = u "Canon PIXMA G3111 Review" /\ length out = 24).
Proof. vm_compute. repeat split; reflexivity. Qed.

Example short_title_is_extended :
  _optimize_seo_title (u "Review") keyphrase
  = u "Canon Pixma G3111 - Review - Melhor Custo Benefício".
Proof. vm_compute. reflexivity. Qed.

(** C8 at failing inputs.  [generate_seo_slug] removes the accents of the
    text but not those of the keyword, whose slug it puts in front;
    [_optimize_slug_with_keyphrase] falls back on the raw keyphrase, which
    may be empty or hold other characters. *)
Theorem slug_failing_inputs :
  (let out := generate_seo_slug (u "Cartucho Térmico Epson: vale a pena?")
                (u "cartucho térmico") in
   out = u "cartucho-térmico-cartucho-termico-epson-vale"
   /\ valid_slug out = false)
  /\ _optimize_slug_with_keyphrase (u "Guia de compra") [] = []
  /\ (let out := _optimize_slug_with_keyphrase (u "Guia de compra") (u "???") in
      out = u "???" /\ valid_slug out = false).
Proof. vm_compute. repeat split; reflexivity. Qed.

Example slug_of_specification :
  generate_seo_slug (u "Canon PIXMA G3111 Tanque") keyphrase = u "canon-pixma-g3111-tanque"
  /\ valid_slug (u "canon-pixma-g3111-tanque") = true.
Proof. vm_compute. split; reflexivity. Qed.

(** ** The keyphrase registry *)

Section Registry.
Context {U : Unicode}.




End Registry.



Example reserve_appends_qualifier :
  _ensure_unique_keyphrase
    (Some [u "Canon Pixma G3111"; u "canon pixma g3111 2025"]) (u "1103")
    (u " Canon PIXMA G3111 ")
  = u "canon pixma g3111 nova".
Proof. vm_compute. reflexivity. Qed.

(** With the query failing the list of used keyphrases stays empty and the
    keyphrase comes back as it is, used or not. *)
Example reserve_without_table :
  _ensure_unique_keyphrase None (u "1103") (u " Canon PIXMA G3111 ") = keyphrase.
Proof. vm_compute. reflexivity. Qed.

(** ** The passes that append, and the list pass *)

Section Substitution.




End Substitution.

Section ListPass.
Context {U : Unicode}.



End ListPass.

Section Appending.
Context {U : Unicode}.







End Appending.

(** The hypothesis on the tags is needed: behind a [<] left open, the first
    [>] of the appended text closes a tag that swallows the body. *)
Example open_tag_swallows_body :
  Re.tags_closed open_body = false
  /\ word_count (Re.strip_tags open_body) = 251
  /\ word_count (Re.strip_tags (_optimize_keyword_density open_body keyphrase)) = 157.
Proof. vm_compute. repeat split; reflexivity. Qed.

Example list_pass_example :
  _optimize_lists_enhanced
    (u "x <ul class=a><li>um</li> y <li><b>dois</b> </li></ul> z <ul></ul>") (u "toner hp")
  = u "x <ul>
    <li>um</li>
    <li>dois</li>
    <li>Alto rendimento com até 2.300 páginas</li>
</ul> z <ul>
    <li>Alto rendimento com até 2.300 páginas</li>
    <li>Qualidade de impressão profissional</li>
    <li>Instalação rápida e sem complicações</li>
</ul>".
Proof. vm_compute. reflexivity. Qed.




(** ** The top-level operation *)

Section Article.
Context {U : Unicode}.
Variable optimize_content_readability : pyval -> str -> pyval.
Variable generate_structured_data_yoast : gmap string pyval -> result pyval.
Variable calculate_yoast_score : gmap string pyval -> result pyval.

Abbreviation attempt := (optimize_article_try optimize_content_readability
                           generate_structured_data_yoast calculate_yoast_score).
Abbreviation optimize := (optimize_article optimize_content_readability
                            generate_structured_data_yoast calculate_yoast_score).

(** A successful run has gone through every step: the four fields that are
    always written are all there. *)
Lemma optimized_fields (article_data optimized : gmap string pyval) :
  attempt article_data = Ok optimized ->
  Forall (fun field => is_Some (optimized !! field))
    ["primary_keyword"; "slug"; "seo_data"; "yoast_score"]%string.
Proof.
  unfold optimize_article_try. cbv zeta.
  unfold mbind, result_bind.
  intros H.
  repeat match type of H with
         | context [match ?x with _ => _ end] =>
             lazymatch x with
             | context [match _ with _ => _ end] => fail
             | _ => destruct x eqn:?; try discriminate H
             end
         end.
  all: injection H as <-.
  all: repeat constructor.
  all: rewrite ?lookup_insert_is_Some'; auto 10.
Qed.

(** C10.  [optimize_article] never raises: it returns the optimized copy when
    every step went through, and the article it was given, as it was given,
    when a step raised. *)
Theorem optimize_article_never_raises (article_data : gmap string pyval) :
  exists out,
    optimize article_data = Ok out
    /\ (raises (attempt article_data) -> out = article_data)
    /\ (forall optimized, attempt article_data = Ok optimized ->
          out = optimized
          /\ Forall (fun field => is_Some (optimized !! field))
               ["primary_keyword"; "slug"; "seo_data"; "yoast_score"]%string).
Proof.
  unfold optimize_article.
  destruct (attempt article_data) as [optimized|e] eqn:E.
  - exists optimized. split; [reflexivity|]. split.
    + intros [e He]. discriminate He.
    + intros o Ho. injection Ho as <-. split; [reflexivity|].
      apply (optimized_fields article_data). exact E.
  - exists article_data. split; [reflexivity|]. split.
    + reflexivity.
    + intros o Ho. discriminate Ho.
Qed.

End Article.

Example optimize_article_index_error :
  optimize_article_try keep_content no_data no_data blank_product = Raise IndexError
  /\ optimize_article keep_content no_data no_data blank_product = Ok blank_product.
Proof. vm_compute. split; reflexivity. Qed.

Example optimize_article_attribute_error :
  optimize_article_try keep_content no_data no_data numeric_title = Raise AttributeError
  /\ optimize_article keep_content no_data no_data numeric_title = Ok numeric_title.
Proof. vm_compute. split; reflexivity. Qed.

Example optimize_article_success :
  match optimize_article keep_content no_data no_data plain_article with
  | Ok optimized =>
      optimized !! "primary_keyword" = Some (VStr (u "canon pixma"))
      /\ optimized !! "titulo" = Some (VStr (u "Canon PIXMA G3111 Review"))
      /\ optimized !! "slug" = Some (VStr (u "canon-pixma-g3111-review"))
  | Raise _ => False
  end.
Proof. vm_compute. repeat split; reflexivity. Qed.

(** * Further properties of the embedded code *)

(** ** Trimming *)

Section Trimming.

Lemma lstrip_by_length (p : char -> bool) (s : str) : length (lstrip_by p s) <= length s.
Proof.
  induction s as [|c r IH]; cbn [lstrip_by]; [lia|].
  destruct (p c); cbn [length]; lia.
Qed.

Lemma strip_by_length (p : char -> bool) (s : str) : length (strip_by p s) <= length s.
Proof.
  unfold strip_by, rstrip_by.
  rewrite length_rev.
  etransitivity; [apply lstrip_by_length|].
  rewrite length_rev. apply lstrip_by_length.
Qed.

(** What is stripped on the left is a prefix of stripped characters. *)
Lemma lstrip_by_split (p : char -> bool) (s : str) :
  exists a, s = a ++ lstrip_by p s /\ Forall (fun c => p c = true) a.
Proof.
  induction s as [|c r [a [IH Ha]]]; cbn [lstrip_by].
  - exists []. split; [reflexivity | constructor].
  - destruct (p c) eqn:E.
    + exists (c :: a). split; [cbn [app]; f_equal; exact IH | constructor; assumption].
    + exists []. split; [reflexivity | constructor].
Qed.

Lemma lstrip_by_head (p : char -> bool) (s : str) (c : char) (r : str) :
  lstrip_by p s = c :: r -> p c = false.
Proof.
  induction s as [|a s IH]; cbn [lstrip_by]; [discriminate|].
  destruct (p a) eqn:E; [exact IH|].
  intros H. injection H as <- _. exact E.
Qed.


Lemma lstrip_by_nil (p : char -> bool) (s : str) :
  lstrip_by p s = [] -> Forall (fun c => p c = true) s.
Proof.
  induction s as [|c s IH]; cbn [lstrip_by]; [constructor|].
  destruct (p c) eqn:E; [|discriminate].
  intros H. constructor; [exact E | apply IH, H].
Qed.

(** Only a text of stripped characters is stripped to nothing. *)
Lemma strip_by_nil (p : char -> bool) (s : str) :
  strip_by p s = [] -> Forall (fun c => p c = true) s.
Proof.
  unfold strip_by, rstrip_by. intros H.
  apply (f_equal (@rev char)) in H. rewrite rev_involutive in H. cbn [rev] in H.
  apply lstrip_by_nil, Forall_rev in H. rewrite rev_involutive in H.
  destruct (lstrip_by_split p s) as [a [E Ha]].
  rewrite E. apply Forall_app. split; assumption.
Qed.

(** A stripped text that is not empty starts and ends with characters that
    are not stripped. *)
Lemma strip_by_ends (p : char -> bool) (s : str) :
  strip_by p s <> [] ->
  exists first middle last,
    (strip_by p s = [first] /\ middle = [] /\ last = first
     \/ strip_by p s = first :: middle ++ [last])
    /\ p first = false /\ p last = false.
Proof.
  unfold strip_by, rstrip_by. intros Hne.
  destruct (lstrip_by p (rev (lstrip_by p s))) as [|z t] eqn:Et.
  { contradiction Hne. reflexivity. }
  pose proof (lstrip_by_head _ _ _ _ Et) as Hz.
  destruct (lstrip_by_split p (rev (lstrip_by p s))) as [a [Ha _]].
  rewrite Et in Ha.
  apply (f_equal (@rev char)) in Ha. rewrite rev_involutive, rev_app_distr in Ha.
  cbn [rev] in *.
  destruct (rev t) as [|y t'] eqn:Ert.
  - cbn [app]. exists z, [], z. split; [left; auto|]. split; exact Hz.
  - cbn [app] in *. exists y, t', z. split; [right; reflexivity|].
    split; [|exact Hz].
    apply (lstrip_by_head p s y ((t' ++ [z]) ++ rev a)).
    rewrite Ha. reflexivity.
Qed.

End Trimming.

(** ** Bounds kept by the composers of [seo_optimizer.py] *)

Section ComposerBounds.
Context {U : Unicode}.

Lemma fit_words_length (limit : nat) (words : list str) : forall acc,
  length acc <= limit -> length (fit_words limit words acc) <= limit.
Proof.
  induction words as [|word rest IH]; intros acc H; cbn [fit_words]; [exact H|].
  cbv zeta.
  destruct acc as [|a acc]; cbn [truthy].
  - destruct (length word <=? limit) eqn:E; [|exact H].
    apply IH. apply Nat.leb_le in E. cbn [app]. exact E.
  - destruct (length ((a :: acc) ++ u " " ++ word) <=? limit) eqn:E; [|exact H].
    apply IH. apply Nat.leb_le in E. exact E.
Qed.

Lemma append_first_cta_length (meta_desc : str) (ctas : list str) :
  length meta_desc <= max_meta_description_length ->
  length (append_first_cta meta_desc ctas) <= max_meta_description_length.
Proof.
  intros H. induction ctas as [|cta rest IH]; cbn [append_first_cta]; [exact H|].
  destruct (length (meta_desc ++ cta) <=? max_meta_description_length) eqn:E; [|exact IH].
  apply Nat.leb_le in E. exact E.
Qed.

Lemma title_yoast_length (title keyword : str) :
  truthy title = true -> length (optimize_title_yoast title keyword) <= 60.
Proof.
  intros Hne. unfold optimize_title_yoast.
  destruct title as [|c0 title0]; [discriminate|]. cbn [truthy negb].
  cbv zeta.
  set (t := if negb (contains (lower keyword) (lower (c0 :: title0)))
            then Py.title keyword ++ u ": " ++ c0 :: title0 else c0 :: title0).
  unfold strip. etransitivity; [apply strip_by_length|].
  unfold max_title_length.
  destruct (60 <? length t) eqn:E.
  - destruct (contains (lower keyword) (lower (slice_to 60 t))).
    + apply fit_words_length. cbn. lia.
    + match goal with
      | |- context [if 60 <? length ?x then _ else _] => destruct (60 <? length x) eqn:E1
      end.
      * unfold slice_to. rewrite length_app, length_take.
        change (length (u "...")) with 3. lia.
      * apply Nat.ltb_ge in E1. exact E1.
  - apply Nat.ltb_ge in E. exact E.
Qed.

Lemma meta_yoast_length (meta_desc keyword : str) :
  truthy meta_desc = true ->
  length (optimize_meta_description_yoast meta_desc keyword) <= 155.
Proof.
  intros Hne. unfold optimize_meta_description_yoast.
  destruct meta_desc as [|c0 m0]; [discriminate|]. cbn [truthy negb].
  cbv zeta.
  set (m := if negb (contains (lower keyword) (lower (Re.strip_tags (c0 :: m0))))
            then Py.title keyword ++ u ": " ++ Re.strip_tags (c0 :: m0)
            else Re.strip_tags (c0 :: m0)).
  unfold strip. etransitivity; [apply strip_by_length|].
  unfold min_meta_description_length, max_meta_description_length.
  destruct (length m <? 120) eqn:E.
  - apply Nat.ltb_lt in E.
    apply append_first_cta_length. unfold max_meta_description_length. lia.
  - destruct (155 <? length m) eqn:E1.
    + rewrite length_app. change (length (u "...")) with 3.
      change (155 - 3) with 152.
      pose proof (fit_words_length 152 (split_ws m) [] ltac:(cbn; lia)). lia.
    + apply Nat.ltb_ge in E1. exact E1.
Qed.

Lemma truthy_app_r (a b : str) : truthy b = true -> truthy (a ++ b) = true.
Proof. destruct a; [intros H; exact H | reflexivity]. Qed.

Lemma seo_slug_shape (text keyword : str) :
  let slug := generate_seo_slug text keyword in
  truthy slug = true
  /\ startswith (u "-") slug = false
  /\ endswith (u "-") slug = false.
Proof.
  cbv zeta. unfold generate_seo_slug.
  destruct (negb (truthy text) && negb (truthy keyword)).
  { repeat split; reflexivity. }
  cbv zeta.
  match goal with
  | |- context [strip_by ?p ?s] =>
      set (stripped := strip_by p s); pose proof (strip_by_ends p s) as H
  end.
  fold stripped in H.
  destruct stripped as [|c r] eqn:Es; cbn [truthy].
  { repeat split; reflexivity. }
  destruct H as [first [middle [last [Hshape [Hf Hl]]]]]; [discriminate|].
  split; [reflexivity|].
  change (u "-") with [ch "-"]. unfold endswith.
  destruct Hshape as [[H1 [-> ->]] | H1].
  - injection H1 as -> ->. cbn [rev app startswith]. rewrite Hf. split; reflexivity.
  - injection H1 as -> ->. split.
    + cbn [startswith]. rewrite Hf. reflexivity.
    + change (first :: middle ++ [last]) with ([first] ++ middle ++ [last]).
      rewrite !rev_app_distr. cbn [rev app startswith]. rewrite Hl. reflexivity.
Qed.

End ComposerBounds.

(** X1.  A title that is not empty comes back from [optimize_title_yoast]
    with at most 60 characters, whatever the keyword. *)
Theorem optimize_title_yoast_at_most_60 {U : Unicode} (title keyword : str) :
  truthy title = true -> length (optimize_title_yoast title keyword) <= 60.
Proof. apply title_yoast_length. Qed.

Lemma optimize_title_yoast_at_most_60_witness :
  length (optimize_title_yoast
            (u "Guia completo de compra: as melhores impressoras multifuncionais com tanque de tinta")
            keyphrase) <= 60.
Proof.
  apply (optimize_title_yoast_at_most_60
           (u "Guia completo de compra: as melhores impressoras multifuncionais com tanque de tinta")
           keyphrase).
  reflexivity.
Defined.

(** X2.  A description that is not empty comes back from
    [optimize_meta_description_yoast] with at most 155 characters, whatever
    the keyword. *)
Theorem optimize_meta_description_yoast_at_most_155 {U : Unicode}
    (meta_desc keyword : str) :
  truthy meta_desc = true ->
  length (optimize_meta_description_yoast meta_desc keyword) <= 155.
Proof. apply meta_yoast_length. Qed.

Lemma optimize_meta_description_yoast_at_most_155_witness :
  length (optimize_meta_description_yoast long_meta keyphrase) <= 155.
Proof.
  apply (optimize_meta_description_yoast_at_most_155 long_meta keyphrase).
  reflexivity.
Defined.

(** X3.  The description that [generate_meta_description_yoast] builds from
    a body has at most 155 characters, whatever the body and the keyword:
    the text it hands to [optimize_meta_description_yoast] is never empty. *)
Theorem generate_meta_description_yoast_at_most_155 {U : Unicode} (content keyword : str) :
  length (generate_meta_description_yoast content keyword) <= 155.
Proof.
  unfold generate_meta_description_yoast. cbv zeta.
  apply meta_yoast_length.
  match goal with
  | |- context [if ?b then _ else _] => destruct b
  end.
  - apply truthy_app_r. reflexivity.
  - reflexivity.
Qed.


(** ** The list pass and the tags *)



Section Tags.
Context {U : Unicode}.

Lemma contains_refl (s : str) : contains s s = true.
Proof.
  destruct s as [|c r]; [reflexivity|].
  cbn [contains].
  pose proof (startswith_app (c :: r) []) as H. rewrite app_nil_r in H.
  rewrite H. reflexivity.
Qed.

(** A tag found by [any_tag_contains] is a string of the list. *)
Lemma any_tag_contains_found (variation_lower : str) (tags : list pyval) :
  any_tag_contains variation_lower tags = Ok true ->
  exists tag, In (VStr tag) tags /\ contains variation_lower (lower tag) = true.
Proof.
  induction tags as [|t rest IH]; cbn [any_tag_contains]; [discriminate|].
  destruct t; cbn; try discriminate.
  destruct (contains variation_lower (lower s)) eqn:E.
  - intros _. exists s. split; [left; reflexivity | exact E].
  - intros H. destruct (IH H) as [tag [Hin Hc]]. exists tag. split; [right; exact Hin | exact Hc].
Qed.

(** The loop leaves a list in which some tag contains the first variation. *)
Lemma insert_first_missing_keeps_first (v : str) (rest : list str) (tags out : list pyval) :
  insert_first_missing (v :: rest) tags = Ok out ->
  (out = tags \/ exists w, out = VStr w :: tags)
  /\ exists tag, In (VStr tag) out /\ contains (lower v) (lower tag) = true.
Proof.
  cbn [insert_first_missing].
  destruct (any_tag_contains (lower v) tags) as [[|]|e] eqn:E; cbn; try discriminate.
  - intros H.
    destruct (any_tag_contains_found _ _ E) as [tag [Hin Hc]].
    assert (Hshape : out = tags \/ exists w, out = VStr w :: tags).
    { clear E Hin Hc tag. revert H. induction rest as [|w rest IH]; cbn [insert_first_missing].
      - intros H. injection H as <-. left. reflexivity.
      - destruct (any_tag_contains (lower w) tags) as [[|]|e]; cbn; try discriminate.
        + exact IH.
        + intros H. injection H as <-. right. exists w. reflexivity. }
    split; [exact Hshape|].
    exists tag. split; [|exact Hc].
    destruct Hshape as [-> | [w ->]]; [exact Hin | right; exact Hin].
  - intros H. injection H as <-. split; [right; exists v; reflexivity|].
    exists v. split; [left; reflexivity | apply contains_refl].
Qed.

End Tags.

(** X6.  [optimize_tags_yoast] returns at most eight tags.  On a list of at
    most seven tags, when it returns, some tag of the result contains the
    keyword, letter case apart.  On a keyword that holds a space and no word
    it raises [IndexError], as [keyword.split()[0]] does. *)
Theorem optimize_tags_yoast_keeps_keyword {U : Unicode} (tags : list pyval) (keyword : str) :
  (forall out, optimize_tags_yoast (VList tags) keyword = Ok out ->
     length out <= 8
     /\ (length tags <= 7 ->
         exists tag, In (VStr tag) out /\ contains (lower keyword) (lower tag) = true))
  /\ (contains (u " ") keyword = true -> split_ws keyword = [] ->
      optimize_tags_yoast (VList tags) keyword = Raise IndexError).
Proof.
  assert (Hl : (if is_true (VList tags) then to_list (VList tags) else Ok []) = Ok tags).
  { destruct tags; reflexivity. }
  unfold optimize_tags_yoast. rewrite Hl. unfold mbind, result_bind.
  split.
  - intros out.
    match goal with
    | |- context [if contains (u " ") keyword then ?a else ?b] =>
        destruct (if contains (u " ") keyword then a else b) as [first_word|e]
    end; [|discriminate].
    destruct (insert_first_missing
                [keyword; replace (u " ") (u "-") keyword; first_word] tags) as [l|e] eqn:E;
      [|discriminate].
    intros H. injection H as <-.
    split; [rewrite length_take; lia|].
    intros Hlen.
    destruct (insert_first_missing_keeps_first _ _ _ _ E) as [Hshape [tag [Hin Hc]]].
    exists tag. split; [|exact Hc].
    rewrite take_ge; [exact Hin|].
    destruct Hshape as [-> | [w ->]]; cbn [length]; lia.
  - intros Hc Hs. rewrite Hc, Hs. reflexivity.
Qed.

Lemma optimize_tags_yoast_keeps_keyword_witness :
  (exists tag, In (VStr tag) [VStr keyphrase; VStr (u "Toner"); VStr (u "HP")]
               /\ contains (lower keyphrase) (lower tag) = true)
  /\ optimize_tags_yoast (VList [VStr (u "Toner")]) (u "  ") = Raise IndexError.
Proof.
  destruct (optimize_tags_yoast_keeps_keyword [VStr (u "Toner"); VStr (u "HP")] keyphrase)
    as [H1 _].
  destruct (optimize_tags_yoast_keeps_keyword [VStr (u "Toner")] (u "  ")) as [_ H2].
  split.
  - destruct (H1 [VStr keyphrase; VStr (u "Toner"); VStr (u "HP")]) as [_ H].
    + vm_compute. reflexivity.
    + apply H. simpl. lia.
  - apply H2; vm_compute; reflexivity.
Defined.

(** ** Words: [split()], [join] and [strip] *)

Section Words.
Context {U : Unicode}.















End Words.

(** *** With the tables of [latin1] *)









(** ** Lines: [split], [join] and [in] *)

Section Lines.

Lemma split_from_not_nil (sep s : str) : forall skip cur, split_from sep s skip cur <> [].
Proof.
  induction s as [|c s IH]; intros skip cur; cbn [split_from]; [discriminate|].
  destruct skip; [|apply IH].
  destruct (startswith sep (c :: s)); [discriminate | apply IH].
Qed.

Lemma join_cons (sep x : str) (l : list str) :
  l <> [] -> join sep (x :: l) = x ++ sep ++ join sep l.
Proof. destruct l; [contradiction | reflexivity]. Qed.

(** Round trip: the pieces joined by the separator give the text back. *)
Lemma join_split_from (sep : str) : sep <> [] -> forall s skip cur,
  join sep (split_from sep s skip cur) = rev cur ++ drop skip s.
Proof.
  intros Hsep. induction s as [|c s IH]; intros skip cur.
  - cbn [split_from join]. rewrite drop_nil, app_nil_r. reflexivity.
  - cbn [split_from]. destruct skip as [|k]; [|apply IH].
    cbn [drop]. destruct (startswith sep (c :: s)) eqn:E.
    + rewrite join_cons by apply split_from_not_nil. rewrite IH. cbn [rev app].
      apply startswith_prefix in E. destruct E as [rest E].
      destruct sep as [|c' sep']; [contradiction|].
      cbn [app] in E. injection E as -> ->.
      replace (length (c' :: sep') - 1) with (length sep') by (cbn [length]; lia).
      rewrite drop_app_length. reflexivity.
    + rewrite IH. cbn [rev drop]. rewrite <- app_assoc. reflexivity.
Qed.

Lemma join_split (sep s : str) : sep <> [] -> join sep (split sep s) = s.
Proof. intros H. unfold split. rewrite (join_split_from sep H). reflexivity. Qed.

(** The first piece is a prefix of the text. *)
Lemma hd_split_prefix (sep s : str) :
  sep <> [] -> startswith (hd [] (split sep s)) s = true.
Proof.
  intros H. pose proof (join_split sep s H) as E. unfold split in *.
  destruct (split_from sep s 0 []) as [|x l] eqn:El.
  { contradiction (split_from_not_nil sep s 0 [] El). }
  cbn [hd]. apply startswith_prefix.
  destruct l as [|y l]; cbn [join] in E.
  - exists []. rewrite app_nil_r. symmetry. exact E.
  - eexists. symmetry. exact E.
Qed.

(** A text without the separating character is one piece, and goes to the
    first piece of what follows it. *)
Lemma split_from_free (c : char) (x y : str) : forall cur,
  Forall (fun a => a <> c) x ->
  split_from [c] (x ++ y) 0 cur = split_from [c] y 0 (rev x ++ cur).
Proof.
  induction x as [|a x IH]; intros cur H; [reflexivity|].
  inversion H as [|? ? Ha Hx]; subst.
  cbn [app split_from startswith].
  destruct (N.eqb_spec c a) as [->|_]; [contradiction|]. cbn [andb].
  rewrite (IH _ Hx). cbn [rev]. rewrite <- app_assoc. reflexivity.
Qed.

Lemma split_free (c : char) (x : str) :
  Forall (fun a => a <> c) x -> split [c] x = [x].
Proof.
  intros H. unfold split.
  pose proof (split_from_free c x [] [] H) as E. rewrite !app_nil_r in E.
  rewrite E. cbn [split_from]. rewrite rev_involutive. reflexivity.
Qed.





Lemma contains_char_free (c : char) (s : str) :
  Forall (fun a => a <> c) s -> contains [c] s = false.
Proof.
  induction 1 as [|a s Ha _ IH]; [reflexivity|].
  cbn [contains startswith]. rewrite IH.
  destruct (N.eqb_spec c a) as [->|_]; [contradiction | reflexivity].
Qed.

Lemma startswith_take (n : nat) (s : str) : startswith (take n s) s = true.
Proof.
  apply startswith_prefix. exists (drop n s). symmetry. apply take_drop.
Qed.

End Lines.

(** ** The passes on sentences, paragraphs and the introduction *)

Section SentencePass.
Context {U : Unicode}.

Lemma split_keep_from_free (p : char -> bool) (t : str) : forall cur,
  Forall (fun c => p c = false) t -> Re.split_keep_from p t cur = [rev cur ++ t].
Proof.
  induction t as [|c t IH]; intros cur H.
  - cbn [Re.split_keep_from]. rewrite app_nil_r. reflexivity.
  - inversion H as [|? ? Hc Ht]; subst.
    cbn [Re.split_keep_from]. rewrite Hc, (IH _ Ht). cbn [rev].
    rewrite <- app_assoc. reflexivity.
Qed.

(** The loop does not read what stands behind the last mark. *)
Lemma sentence_loop_tail (p : char -> bool) (t : str) :
  Forall (fun c => p c = false) t ->
  forall a cur optimized_sentences,
    sentence_loop (Re.split_keep_from p (a ++ t) cur) optimized_sentences
    = sentence_loop (Re.split_keep_from p a cur) optimized_sentences.
Proof.
  intros Ht. induction a as [|c a IH]; intros cur acc.
  - cbn [app]. rewrite (split_keep_from_free p t cur Ht). reflexivity.
  - cbn [app Re.split_keep_from].
    destruct (p c); [|apply IH].
    cbn [sentence_loop]. cbv zeta. rewrite !IH. reflexivity.
Qed.

Lemma plain_not_skipped (s : str) (c : char) :
  Forall plain_char s -> In c s -> isspace c = false -> skipped s = false.
Proof.
  intros Hs Hin Hc. unfold skipped. change (u "<") with [Re.LT].
  rewrite (contains_char_free Re.LT s), orb_false_r.
  - destruct (strip s) as [|x r] eqn:E; [|reflexivity].
    apply strip_by_nil in E. rewrite Forall_forall in E.
    apply list_elem_of_In, E in Hin. congruence.
  - eapply Forall_impl; [exact Hs|]. intros a [_ Ha]. exact Ha.
Qed.

Lemma plain_one_line (s : str) : Forall plain_char s -> split [Re.NL] s = [s].
Proof.
  intros H. apply split_free. eapply Forall_impl; [exact H|]. intros a [Ha _]. exact Ha.
Qed.

(** The sentence is put in front with one space: the first piece of the
    body is a prefix of the body. *)
Lemma intro_prepends (content keyword : str) :
  let out := _ensure_keyword_in_intro content keyword in
  out = content \/ out = new_intro keyword ++ u " " ++ content.
Proof.
  cbv zeta. unfold _ensure_keyword_in_intro. cbv zeta.
  match goal with
  | |- context [startswith ?fp content] =>
      assert (Hfp : startswith fp content = true)
  end.
  { destruct (contains [Re.NL] content).
    - apply hd_split_prefix. discriminate.
    - apply startswith_take. }
  rewrite Hfp.
  match goal with
  | |- context [if ?b then _ else _] => destruct b
  end; [right | left]; reflexivity.
Qed.

End SentencePass.

(** X7.  A split point, when there is one, leaves at least eight words in
    front of it and at least three behind, and lies among the first twenty
    words. *)
Theorem split_point_bounds {U : Unicode} (words : list str) (k : nat) :
  _find_best_split_point words = Some k ->
  8 <= k <= 20 /\ k + 3 <= length words.
Proof.
  unfold _find_best_split_point, split_positions.
  assert (Hin : forall i, In i (seq 8 (Nat.min (length words - 3) 20 - 8)) ->
                          8 <= i < 20 /\ i + 4 <= length words).
  { intros i Hi. apply in_seq in Hi. lia. }
  match goal with
  | |- match ?x with _ => _ end = _ -> _ => destruct x as [i|] eqn:E1
  end.
  - intros H. injection H as <-. apply find_some in E1. destruct E1 as [Hi _].
    apply Hin in Hi. lia.
  - match goal with
    | |- match ?x with _ => _ end = _ -> _ => destruct x as [i|] eqn:E2
    end; [|discriminate].
    intros H. injection H as <-. apply find_some in E2. destruct E2 as [Hi _].
    apply Hin in Hi. lia.
Qed.

Lemma split_point_bounds_witness :
  let words :=
    split_ws (u "a impressora imprime documentos e fotos com tanque de tinta, copia e digitaliza com boa velocidade e tem conexão sem fio para o celular") in
  8 <= 11 <= 20 /\ 11 + 3 <= length words.
Proof.
  apply (split_point_bounds
           (split_ws (u "a impressora imprime documentos e fotos com tanque de tinta, copia e digitaliza com boa velocidade e tem conexão sem fio para o celular")) 11).
  vm_compute. reflexivity.
Defined.

(** X8.  On a line without markup, [_optimize_sentence_length_enhanced]
    drops the text that stands behind the last of the marks [.], [!] and [?]:
    the line comes back as if that text were not there, and a line that has
    words but none of these marks comes back empty. *)
Theorem sentence_pass_drops_tail {U : Unicode} (a t : str) (m : char) :
  Forall plain_char (a ++ m :: t) ->
  in_chars (u ".!?") m = true -> isspace m = false ->
  Forall (fun c => in_chars (u ".!?") c = false) t ->
  _optimize_sentence_length_enhanced (a ++ m :: t)
  = _optimize_sentence_length_enhanced (a ++ [m])
  /\ (truthy (strip t) = true -> _optimize_sentence_length_enhanced t = []).
Proof.
  intros Hplain Hm Hsp Ht.
  assert (Hplain1 : Forall plain_char (a ++ [m])).
  { apply Forall_app in Hplain. destruct Hplain as [Ha Hmt].
    inversion Hmt; subst. apply Forall_app. split; [exact Ha | constructor; [assumption | constructor]]. }
  assert (Hplain2 : Forall plain_char t).
  { apply Forall_app in Hplain. destruct Hplain as [_ Hmt]. inversion Hmt; subst. assumption. }
  assert (Hone : forall s, s <> [] -> Forall plain_char s -> skipped s = false ->
                 _optimize_sentence_length_enhanced s
                 = concat (sentence_loop (Re.split_keep (in_chars (u ".!?")) s) [])).
  { intros s Hne Hs Hsk. unfold _optimize_sentence_length_enhanced.
    destruct s as [|x s]; [contradiction|]. cbn [truthy negb].
    rewrite (plain_one_line _ Hs). cbn [map join]. rewrite Hsk. reflexivity. }
  split.
  - rewrite !Hone.
    + unfold Re.split_keep.
      change (a ++ m :: t) with (a ++ [m] ++ t). rewrite app_assoc.
      rewrite (sentence_loop_tail _ t Ht). reflexivity.
    + destruct a; discriminate.
    + exact Hplain1.
    + apply (plain_not_skipped _ m Hplain1); [|exact Hsp].
      apply in_or_app. right. left. reflexivity.
    + destruct a; discriminate.
    + exact Hplain.
    + apply (plain_not_skipped _ m Hplain); [|exact Hsp].
      apply in_or_app. right. left. reflexivity.
  - intros Hwords.
    assert (Hsk : skipped t = false).
    { unfold skipped. rewrite Hwords. cbn [negb orb]. change (u "<") with [Re.LT].
      apply contains_char_free. eapply Forall_impl; [exact Hplain2|]. intros c [_ Hc]. exact Hc. }
    rewrite Hone; [| |exact Hplain2|exact Hsk].
    + unfold Re.split_keep. rewrite (split_keep_from_free _ t [] Ht). reflexivity.
    + intros ->. unfold strip, strip_by, rstrip_by in Hwords. discriminate Hwords.
Qed.

Lemma sentence_pass_drops_tail_witness :
  _optimize_sentence_length_enhanced (u "Imprime bem. Custa pouco")
  = _optimize_sentence_length_enhanced (u "Imprime bem.")
  /\ (truthy (strip (u " Custa pouco")) = true ->
      _optimize_sentence_length_enhanced (u " Custa pouco") = []).
Proof.
  apply (sentence_pass_drops_tail (u "Imprime bem") (u " Custa pouco") (ch ".")).
  - apply Forall_forall. intros c Hc. apply list_elem_of_In in Hc.
    vm_compute in Hc. split; intros ->; vm_compute in Hc; intuition discriminate.
  - reflexivity.
  - reflexivity.
  - apply Forall_forall. intros c Hc. apply list_elem_of_In in Hc.
    vm_compute in Hc. intuition (subst; reflexivity).
Defined.

(** X9.  A body in which every line is blank or holds markup comes back from
    [_optimize_sentence_length_enhanced] as it is. *)
Theorem sentence_pass_keeps_markup {U : Unicode} (content : str) :
  Forall (fun paragraph => skipped paragraph = true) (split [Re.NL] content) ->
  _optimize_sentence_length_enhanced content = content.
Proof.
  intros H. unfold _optimize_sentence_length_enhanced.
  destruct (truthy content); [|reflexivity]. cbn [negb].
  rewrite <- (join_split [Re.NL] content) at 2 by discriminate.
  f_equal. induction H as [|x l Hx _ IH]; [reflexivity|].
  cbn [map]. rewrite Hx, IH. reflexivity.
Qed.

Lemma sentence_pass_keeps_markup_witness :
  _optimize_sentence_length_enhanced (u "<h2>Canon</h2>

<p>Imprime bem. Custa pouco</p>") = u "<h2>Canon</h2>

<p>Imprime bem. Custa pouco</p>".
Proof.
  apply (sentence_pass_keeps_markup (u "<h2>Canon</h2>

<p>Imprime bem. Custa pouco</p>")).
  change (split [Re.NL] (u "<h2>Canon</h2>

<p>Imprime bem. Custa pouco</p>"))
    with [u "<h2>Canon</h2>"; []; u "<p>Imprime bem. Custa pouco</p>"].
  constructor; [reflexivity|].
  constructor; [reflexivity|].
  constructor; [reflexivity|].
  constructor.
Defined.

(** X10.  A body whose lines are blank, hold markup or have at most 100 words
    comes back from [_optimize_paragraph_length_enhanced] with every line
    feed doubled, and otherwise as it is. *)
Theorem paragraph_pass_doubles_line_feeds {U : Unicode} (content : str) :
  Forall (fun paragraph => skipped paragraph = true \/ word_count paragraph <= 100)
    (split [Re.NL] content) ->
  _optimize_paragraph_length_enhanced content = replace [Re.NL] [Re.NL; Re.NL] content.
Proof.
  intros H. unfold _optimize_paragraph_length_enhanced, replace.
  f_equal. induction H as [|x l Hx _ IH]; [reflexivity|].
  cbn [flat_map]. rewrite IH.
  destruct (skipped x) eqn:E; [reflexivity|].
  destruct Hx as [Hx|Hx]; [discriminate|].
  unfold split_paragraph. cbv zeta. fold (word_count x).
  apply Nat.leb_le in Hx. rewrite Hx. reflexivity.
Qed.

Lemma paragraph_pass_doubles_line_feeds_witness :
  _optimize_paragraph_length_enhanced (u "<h2>Canon</h2>

Imprime bem.
Custa pouco.") = u "<h2>Canon</h2>



Imprime bem.

Custa pouco.".
Proof.
  apply (paragraph_pass_doubles_line_feeds (u "<h2>Canon</h2>

Imprime bem.
Custa pouco.")).
  change (split [Re.NL] (u "<h2>Canon</h2>

Imprime bem.
Custa pouco.")) with [u "<h2>Canon</h2>"; []; u "Imprime bem."; u "Custa pouco."].
  constructor; [left; reflexivity|].
  constructor; [left; reflexivity|].
  constructor; [right; vm_compute; lia|].
  constructor; [right; vm_compute; lia|].
  constructor.
Defined.

(** X11.  [_ensure_keyword_in_intro] gives the body back or puts one
    sentence and one space in front of it: the branch that would put an
    empty line between them is never taken, and nothing of the body is
    lost. *)
Theorem intro_is_prepended {U : Unicode} (content keyword : str) :
  let out := _ensure_keyword_in_intro content keyword in
  out = content \/ out = new_intro keyword ++ u " " ++ content.
Proof. apply intro_prepends. Qed.

Section Introduction.


End Introduction.



(** ** The fields written by [optimize_article] *)

Section Pipeline.
Context {U : Unicode}.
Variable optimize_content_readability : pyval -> str -> pyval.
Variable generate_structured_data_yoast : gmap string pyval -> result pyval.
Variable calculate_yoast_score : gmap string pyval -> result pyval.

Lemma title_any_of_string (t keyword : str) :
  optimize_title_yoast_any (VStr t) keyword = Ok (optimize_title_yoast t keyword).
Proof. destruct t; reflexivity. Qed.

Lemma slug_any_of_string (t keyword : str) :
  generate_seo_slug_any (VStr t) keyword = Ok (generate_seo_slug t keyword).
Proof. destruct t; reflexivity. Qed.

(** The title and the slug of a successful run. *)
Lemma optimized_title_and_slug (article_data optimized : gmap string pyval) (t : str) :
  optimize_article_try optimize_content_readability generate_structured_data_yoast
    calculate_yoast_score article_data = Ok optimized ->
  article_data !! "titulo" = Some (VStr t) ->
  exists keyword,
    _extract_primary_keyword article_data = Ok keyword
    /\ optimized !! "primary_keyword" = Some (VStr keyword)
    /\ optimized !! "titulo" = Some (VStr (optimize_title_yoast t keyword))
    /\ optimized !! "slug"
       = Some (VStr (generate_seo_slug (optimize_title_yoast t keyword) keyword)).
Proof.
  intros H Ht.
  unfold optimize_article_try in H. cbv zeta in H. unfold mbind, result_bind in H.
  destruct (_extract_primary_keyword article_data) as [keyword|e]; [|discriminate H].
  exists keyword. split; [reflexivity|].
  rewrite lookup_insert_ne in H by discriminate.
  rewrite Ht, title_any_of_string in H.
  rewrite lookup_insert_eq in H. cbn [from_option id] in H.
  rewrite slug_any_of_string in H.
  repeat match type of H with
         | context [match ?x with _ => _ end] =>
             lazymatch x with
             | context [match _ with _ => _ end] => fail
             | _ => destruct x eqn:?; try discriminate H
             end
         end.
  all: try congruence.
  all: injection H as <-.
  all: repeat split.
  all: rewrite ?lookup_insert_ne by discriminate.
  all: rewrite ?lookup_insert_eq; try reflexivity.
  all: rewrite ?lookup_insert_ne by discriminate.
  all: rewrite ?lookup_insert_eq; try reflexivity.
Qed.

End Pipeline.

(** X13.  When [optimize_article] goes through every step on an article
    whose title is a string that is not empty, the copy it returns has the
    title that [optimize_title_yoast] makes of that title, of at most 60
    characters, and the slug that [generate_seo_slug] makes of the new title:
    not empty, and without a hyphen at either end. *)
Theorem optimized_article_title_and_slug {U : Unicode}
    (optimize_content_readability : pyval -> str -> pyval)
    (generate_structured_data_yoast calculate_yoast_score : gmap string pyval -> result pyval)
    (article_data optimized : gmap string pyval) (t : str) :
  optimize_article_try optimize_content_readability generate_structured_data_yoast
    calculate_yoast_score article_data = Ok optimized ->
  article_data !! "titulo" = Some (VStr t) ->
  truthy t = true ->
  exists keyword title slug,
    optimized !! "primary_keyword" = Some (VStr keyword)
    /\ optimized !! "titulo" = Some (VStr title)
    /\ optimized !! "slug" = Some (VStr slug)
    /\ title = optimize_title_yoast t keyword
    /\ slug = generate_seo_slug title keyword
    /\ length title <= 60
    /\ truthy slug = true
    /\ startswith (u "-") slug = false
    /\ endswith (u "-") slug = false.
Proof.
  intros H Ht Htruthy.
  destruct (optimized_title_and_slug _ _ _ _ _ _ H Ht) as [keyword [_ [Hk [Htitle Hslug]]]].
  exists keyword, (optimize_title_yoast t keyword),
    (generate_seo_slug (optimize_title_yoast t keyword) keyword).
  split; [exact Hk|]. split; [exact Htitle|]. split; [exact Hslug|].
  split; [reflexivity|]. split; [reflexivity|].
  split; [apply title_yoast_length, Htruthy|].
  apply seo_slug_shape.
Qed.

Lemma optimized_article_title_and_slug_witness :
  exists optimized keyword title slug,
    optimize_article_try keep_content no_data no_data plain_article = Ok optimized
    /\ optimized !! "primary_keyword" = Some (VStr keyword)
    /\ optimized !! "titulo" = Some (VStr title)
    /\ optimized !! "slug" = Some (VStr slug)
    /\ length title <= 60
    /\ truthy slug = true.
Proof.
  destruct (optimize_article_try keep_content no_data no_data plain_article)
    as [optimized|e] eqn:E; [|vm_compute in E; discriminate E].
  destruct (optimized_article_title_and_slug keep_content no_data no_data plain_article
              optimized (u "Canon PIXMA G3111 Review") E)
    as [keyword [title [slug [H1 [H2 [H3 [_ [_ [H4 [H5 _]]]]]]]]]].
  - vm_compute. reflexivity.
  - reflexivity.
  - exists optimized, keyword, title, slug. repeat split; assumption.
Defined.

(** ** The focus keyphrase *)



(** ** What decides the validity of a report *)

Section Validity.
Context {U : Unicode}.

(** All the critical checks passed: fourteen or fifteen checks of fifteen. *)
Lemma score_of_critical_checks (b : bool) :
  fge (percent
         (count_passed
            [ ("focus_keyword", true); ("keyword_in_title", true); ("title_length", true);
              ("keyword_in_meta", true); ("meta_length", true); ("keyword_first_100", true);
              ("min_words", true); ("internal_link", true); ("external_link", true);
              ("image_alt", true); ("keyword_density", true); ("transition_words", true);
              ("no_consecutive_sentences", true); ("keyphrase_in_heading", true);
              ("keyphrase_in_slug", b) ]%string) 15) 90%float = true.
Proof. destruct b; vm_compute; reflexivity. Qed.

End Validity.

(** X14.  The report is valid exactly when it lists no error: the thirteen
    checks that record an error leave at most one check failed, and fourteen
    checks of fifteen are above the threshold of 90, so that the score never
    decides. *)
Theorem valid_iff_no_error {U : Unicode}
    (content title meta_description : str) (focus_keyphrase : option str) :
  let r := _validate_yoast_green_criteria content focus_keyphrase title meta_description in
  is_valid r = true <-> errors r = [].
Proof.
  cbv zeta. destruct focus_keyphrase as [kp|]; [|split; discriminate].
  unfold _validate_yoast_green_criteria, validate_str. cbv zeta.
  rewrite blocked_is_failed_check.
  cbn [is_valid errors length].
  repeat match goal with
         | |- context [unless ?b _] => tryif is_var b then fail else (generalize b; intro)
         end.
  match goal with
  | |- context [("keyphrase_in_slug"%string, ?b)] => generalize b; intro
  end.
  match goal with
  | |- context [bool_decide (?l = [])] =>
      assert (Herr : l = [] <-> bool_decide (l = []) = true)
        by (rewrite bool_decide_eq_true; reflexivity);
      assert (Hall : l = [] ->
                b = true /\ b0 = true /\ b1 = true /\ b2 = true /\ b3 = true /\ b4 = true
                /\ b5 = true /\ b6 = true /\ b7 = true /\ b8 = true /\ b9 = true
                /\ b10 = true /\ b11 = true)
        by (rewrite !unless_app_nil, unless_nil; tauto);
      generalize dependent l
  end.
  intros l Herr Hall.
  destruct b; cbn [negb].
  - split.
    + intros H. apply andb_true_iff in H. apply Herr, H.
    + intros H. apply andb_true_iff. split; [|apply Herr, H].
      destruct (Hall H) as (_ & -> & -> & -> & -> & -> & -> & -> & -> & -> & -> & -> & ->).
      apply score_of_critical_checks.
  - split; discriminate.
Qed.

(** X15.  A focus keyphrase of fewer than three characters blocks the
    publication: the report is not valid and its first error is the blocking
    one, whatever the article. *)
Theorem short_keyphrase_is_blocked {U : Unicode}
    (content title meta_description kp : str) :
  length kp < 3 ->
  let r := _validate_yoast_green_criteria content (Some kp) title meta_description in
  is_valid r = false
  /\ exists rest, errors r = CriticalNoFocusKeyword :: FocusKeywordMissing :: rest.
Proof.
  intros H. cbv zeta.
  unfold _validate_yoast_green_criteria, validate_str. cbv zeta.
  rewrite blocked_is_failed_check.
  assert (E : truthy kp && (3 <=? length kp) = false).
  { destruct kp as [|a [|b [|c r]]]; try reflexivity. cbn [length] in H. lia. }
  cbn [is_valid errors]. rewrite E. cbn [negb unless app].
  split; [reflexivity|]. eexists. reflexivity.
Qed.

Lemma short_keyphrase_is_blocked_witness :
  let r := _validate_yoast_green_criteria green_content (Some (u "hp")) green_title green_meta in
  is_valid r = false
  /\ exists rest, errors r = CriticalNoFocusKeyword :: FocusKeywordMissing :: rest.
Proof.
  apply (short_keyphrase_is_blocked green_content green_title green_meta (u "hp")).
  vm_compute. lia.
Defined.

(** ** What the publisher composes *)

(** X16.  For a keyphrase of three characters or more, the description that
    [_optimize_meta_description] returns has between 120 and 155 characters,
    whatever the description and the body it is given. *)
Theorem publisher_meta_description_in_range {U : Unicode}
    (meta_desc focus_keyphrase content : str) :
  3 <= length focus_keyphrase ->
  120 <= length (_optimize_meta_description meta_desc focus_keyphrase content) <= 155.
Proof. apply meta_description_length. Qed.

Lemma publisher_meta_description_in_range_witness :
  3 <= length keyphrase
  /\ 120 <= length (_optimize_meta_description long_meta keyphrase []) <= 155.
Proof.
  split; [vm_compute; lia|].
  apply (publisher_meta_description_in_range long_meta keyphrase []).
  vm_compute. lia.
Defined.



(** X18.  The slug that [_optimize_slug_with_keyphrase] returns is not empty
    and made of lower-case letters, digits and hyphens only, unless nothing is
    left of the keyphrase after the filter: then it is the raw keyphrase with
    hyphens for spaces. *)
Theorem publisher_slug_valid_or_fallback {U : Unicode} (text focus_keyphrase : str) :
  let out := _optimize_slug_with_keyphrase text focus_keyphrase in
  valid_slug out = true \/ out = replace (u " ") (u "-") focus_keyphrase.
Proof. apply slug_valid_or_fallback. Qed.

(** X19.  Whatever the body and the keyphrase, [_optimize_keyword_density]
    only appends, and what it appends is taken from three texts that are
    fixed: the padding of a short body, then either the dilution or the first
    sentences of [natural_contexts].  None of them is built from the
    keyphrase. *)
Theorem density_pass_appends_fixed_text {U : Unicode} (content focus_keyphrase : str) :
  exists pad tail,
    (pad = [] \/ pad = extra_content)
    /\ (tail = dilution_content
        \/ exists k, tail = concat (map (fun context => Re.NL :: context)
                                      (take k natural_contexts)))
    /\ _optimize_keyword_density content focus_keyphrase = content ++ pad ++ tail.
Proof. apply keyword_density_appends_fixed_text. Qed.

(** ** The review workflow *)

Section Review.


(** Without the column [content_hash] the lookup of the duplicate check
    raises, and the check answers [False]. *)
Lemma no_hash_column_no_duplicate (db : database) (article_data : gmap string str) :
  hash_column db = false ->
  _is_duplicate_article (store_of db) article_data = Ok false.
Proof.
  intros H. unfold _is_duplicate_article, is_duplicate_lookup, store_of.
  rewrite H.
  destruct (_calculate_content_hash article_data) as [h|e]; [|reflexivity].
  destruct (reachable db); reflexivity.
Qed.

End Review.

(** X21.  The fingerprint reads the title and the first 200 characters of
    the body and nothing else: what stands in the body behind them, and every
    other field of the article, does not change it. *)
Theorem fingerprint_reads_title_and_200_characters
    (article_data : gmap string str) (body extra : str) (field : string) (value : str) :
  200 <= length body ->
  field <> "titulo"%string -> field <> "conteudo"%string ->
  _calculate_content_hash (<[field := value]> (<["conteudo" := body ++ extra]> article_data))
  = _calculate_content_hash (<["conteudo" := body]> article_data).
Proof.
  intros Hlen Ht Hc. unfold _calculate_content_hash.
  rewrite !content_for_hash_unfold.
  rewrite !(lookup_insert_ne _ field) by congruence.
  rewrite !lookup_insert_eq.
  rewrite !lookup_insert_ne by discriminate.
  cbn [from_option id].
  rewrite take_app_le by exact Hlen. reflexivity.
Qed.

Lemma fingerprint_reads_title_and_200_characters_witness :
  _calculate_content_hash
    (<["slug" := u "canon"]>
       (<["conteudo" := List.repeat (ch "a") 200 ++ u "<p>fim</p>"]> sample_article))
  = _calculate_content_hash (<["conteudo" := List.repeat (ch "a") 200]> sample_article).
Proof.
  apply (fingerprint_reads_title_and_200_characters sample_article
           (List.repeat (ch "a") 200) (u "<p>fim</p>") "slug" (u "canon")).
  - vm_compute. lia.
  - discriminate.
  - discriminate.
Defined.

(** X22.  On a table [articles] without the column [content_hash], which is
    the table that [init_database] creates, [save_article_for_review] stores
    nothing and raises, whatever the article; the error is never the one of
    a duplicate. *)
Theorem save_raises_without_hash_column (db : database) (article_data : gmap string str) :
  hash_column db = false ->
  exists e, save_article_for_review db article_data = (db, SaveFailed e).
Proof.
  intros H. unfold save_article_for_review.
  rewrite (no_hash_column_no_duplicate db article_data H), H.
  destruct (negb (reachable db)); [eexists; reflexivity|].
  destruct (_calculate_content_hash article_data) as [h|e]; eexists; reflexivity.
Qed.

Lemma save_raises_without_hash_column_witness :
  exists e,
    save_article_for_review
      {| reachable := true; hash_column := false; articles := []; sequence := 0 |}
      sample_article
    = ({| reachable := true; hash_column := false; articles := []; sequence := 0 |},
       SaveFailed e).
Proof.
  apply (save_raises_without_hash_column
           {| reachable := true; hash_column := false; articles := []; sequence := 0 |}
           sample_article).
  reflexivity.
Defined.



(** X24.  [update_article], and with it [approve_article], [reject_article]
    and [mark_as_published], adds and removes no row and never changes the id
    or the fingerprint of a row: an article whose title or body was edited
    keeps the fingerprint of its first text.  When it answers [False] the
    table is as it was. *)
Theorem update_keeps_ids_and_fingerprints
    (db : database) (article_id : nat) (updates : gmap string str) (now revisor : str) :
  let db' := fst (update_article db article_id updates now revisor) in
  map art_id (articles db') = map art_id (articles db)
  /\ map art_content_hash (articles db') = map art_content_hash (articles db)
  /\ sequence db' = sequence db
  /\ (snd (update_article db article_id updates now revisor) = false -> db' = db).
Proof.
  cbv zeta. unfold update_article. cbv zeta.
  destruct (bool_decide _); [repeat split; reflexivity|].
  destruct (negb (reachable db)); [repeat split; reflexivity|].
  destruct (existsb (has_id article_id) (articles db)); [|repeat split; reflexivity].
  cbn [fst snd articles sequence].
  split; [|split; [|split; [reflexivity | discriminate]]].
  - induction (articles db) as [|a l IH]; [reflexivity|].
    cbn [map]. rewrite IH. destruct (has_id article_id a); reflexivity.
  - induction (articles db) as [|a l IH]; [reflexivity|].
    cbn [map]. rewrite IH. destruct (has_id article_id a); reflexivity.
Qed.

Section Approval.

Lemma approval_fields (status comentario : str) :
  filter (fun kv : string * str => kv.1 ∈ allowed_fields)
    (<["status" := status]> (<["comentario_revisor" := comentario]> (∅ : gmap string str)))
  = <["status" := status]> (<["comentario_revisor" := comentario]> ∅).
Proof.
  apply map_filter_id. intros k v H.
  apply lookup_insert_Some in H. destruct H as [[<- _] | [_ H]].
  { cbn. unfold allowed_fields. set_solver. }
  apply lookup_insert_Some in H. destruct H as [[<- _] | [_ H]].
  { cbn. unfold allowed_fields. set_solver. }
  rewrite lookup_empty in H. discriminate.
Qed.

End Approval.

(** X25.  [approve_article] succeeds exactly when the database opens and holds
    a row of that id, whatever the status of the row: a rejected or published
    article is approved as a pending one is.  Afterwards the rows of that id
    have the status [aprovado] with the comment, the reviewer and the date of
    the call, and the other rows are as they were. *)
Theorem approve_ignores_status
    (db : database) (article_id : nat) (revisor comentario now : str) :
  let db' := fst (approve_article db article_id revisor comentario now) in
  let ok := snd (approve_article db article_id revisor comentario now) in
  ok = reachable db && existsb (has_id article_id) (articles db)
  /\ (ok = true ->
      articles db'
      = map (fun a => if has_id article_id a
                      then {| art_id := art_id a;
                              art_titulo := art_titulo a;
                              art_slug := art_slug a;
                              art_meta_descricao := art_meta_descricao a;
                              art_conteudo := art_conteudo a;
                              art_status := u "aprovado";
                              art_data_revisao := Some now;
                              art_comentario_revisor := Some comentario;
                              art_revisor_nome := Some revisor;
                              art_content_hash := art_content_hash a |}
                      else a) (articles db)).
Proof.
  cbv zeta. unfold approve_article, update_article. cbv zeta.
  rewrite approval_fields.
  rewrite bool_decide_eq_false_2.
  2: { intros H. apply (f_equal (fun m : gmap string str => m !! "status")) in H.
       rewrite lookup_insert, lookup_empty in H. discriminate. }
  destruct (reachable db); cbn [negb andb]; [|split; [reflexivity | discriminate]].
  destruct (existsb (has_id article_id) (articles db));
    [|split; [reflexivity | discriminate]].
  cbn [fst snd articles]. split; [reflexivity|]. intros _.
  apply map_ext. intros a. destruct (has_id article_id a); [|reflexivity].
  unfold set_fields.
  rewrite lookup_insert.
  rewrite !lookup_insert_ne by discriminate.
  rewrite lookup_insert, !lookup_empty. reflexivity.
Qed.

(** X26.  Once [delete_article] has removed an id, no row bears it: every
    later update or approval of that id answers [False] and leaves the table
    as it is. *)
Theorem deleted_article_cannot_be_updated
    (db db' : database) (article_id : nat) (updates : gmap string str) (now revisor : str) :
  delete_article db article_id = (db', true) ->
  Forall (fun a => art_id a <> article_id) (articles db')
  /\ update_article db' article_id updates now revisor = (db', false).
Proof.
  unfold delete_article.
  destruct (negb (reachable db)); [discriminate|].
  destruct (existsb (has_id article_id) (articles db)); [|discriminate].
  intros H. injection H as <-.
  cbn [articles].
  assert (Hgone : Forall (fun a => art_id a <> article_id)
                    (List.filter (fun a => negb (has_id article_id a)) (articles db))).
  { apply Forall_forall. intros a Ha. apply list_elem_of_In, filter_In in Ha.
    destruct Ha as [_ Ha]. unfold has_id in Ha.
    apply negb_true_iff, Nat.eqb_neq in Ha. exact Ha. }
  split; [exact Hgone|].
  unfold update_article. cbv zeta. cbn [articles reachable].
  destruct (bool_decide _); [reflexivity|].
  destruct (negb (reachable db)); [reflexivity|].
  replace (existsb (has_id article_id)
             (List.filter (fun a => negb (has_id article_id a)) (articles db))) with false;
    [reflexivity|].
  symmetry. apply not_true_is_false. intros H.
  apply existsb_exists in H. destruct H as [a [Ha Hid]].
  rewrite Forall_forall in Hgone. apply list_elem_of_In, Hgone in Ha.
  unfold has_id in Hid. apply Nat.eqb_eq in Hid. contradiction.
Qed.

Lemma deleted_article_cannot_be_updated_witness :
  let db := {| reachable := true; hash_column := true; articles := []; sequence := 0 |} in
  let db1 := fst (save_article_for_review db sample_article) in
  let db2 := fst (delete_article db1 1) in
  Forall (fun a => art_id a <> 1) (articles db2)
  /\ update_article db2 1 (<["status" := u "aprovado"]> ∅) (u "2026-11-03 10:00:00")
       (u "Sistema") = (db2, false).
Proof.
  cbv zeta.
  apply (deleted_article_cannot_be_updated
           (fst (save_article_for_review
                   {| reachable := true; hash_column := true; articles := [];
                      sequence := 0 |} sample_article))).
  vm_compute. reflexivity.
Defined.
